(** * OpenBase benchmark scoring: a shallow embedding in Rocq

    This development models the benchmark-scoring CLI of the repository:
    [benchmarks/stats_utils.py] (normalization, size bucket, [BenchmarkResult]),
    the three AST scorers [benchmarks/readability.py],
    [benchmarks/documentation.py] and [benchmarks/robustness.py], the early
    exit of [benchmarks/performance.py], and the weighting loop of the
    [compare] command in [main.py].

    Modelling choices:
    - Python floats are modelled as exact rationals [Q]; scores are never NaN.
    - A Python [dict] with string keys is an insertion-ordered association
      list; [d[k] = v] updates in place or appends, [d.get(k, dflt)] looks up
      the first binding.
    - The file system and the third-party libraries (ast, radon, pycodestyle)
      are oracles: functions from paths or source text to their outcome,
      including the exceptions they raise.
    - Detail messages are kept structurally (one constructor per f-string). *)

From Stdlib Require Import Arith QArith Qminmax Lqa String Ascii List Bool Lia.
Import ListNotations.
Open Scope Q_scope.

(* ------------------------------------------------------------------ *)
(** ** Python helpers *)

Definition Qltb (x y : Q) : bool := negb (Qle_bool y x).

(** Python's built-in [max(a, b)]: keeps the first argument unless the
    second is strictly larger. *)
Definition py_max2 (a b : Q) : Q := if Qltb a b then b else a.

(** Python's built-in [min(a, b)]: keeps the first argument unless the
    second is strictly smaller. *)
Definition py_min2 (a b : Q) : Q := if Qltb b a then b else a.

(** [max(values)] over a non-empty iterable (the empty case raises
    [ValueError] in Python and is never reached by the callers modelled). *)
Definition py_max (l : list Q) : Q :=
  match l with
  | [] => 0
  | x :: xs => fold_left py_max2 xs x
  end.

(** [int] to [float]. *)
Definition qn (n : nat) : Q := inject_Z (Z.of_nat n).

(** A [Dict[str, V]]: an insertion-ordered association list. *)
Definition dict (V : Type) := list (string * V).

Fixpoint dict_lookup {V} (k : string) (d : dict V) : option V :=
  match d with
  | [] => None
  | (k', v) :: t => if String.eqb k k' then Some v else dict_lookup k t
  end.

(** [d.get(k, dflt)]. *)
Definition dict_get {V} (k : string) (d : dict V) (dflt : V) : V :=
  match dict_lookup k d with Some v => v | None => dflt end.

(** [d[k] = v]: update in place, or append a new key. *)
Fixpoint dict_setitem {V} (k : string) (v : V) (d : dict V) : dict V :=
  match d with
  | [] => [(k, v)]
  | (k', v') :: t =>
      if String.eqb k k' then (k', v) :: t else (k', v') :: dict_setitem k v t
  end.

Definition dict_values {V} (d : dict V) : list V := map snd d.

(** [lst.insert(i, x)] (appends when [i] is past the end). *)
Definition py_insert {A} (i : nat) (x : A) (l : list A) : list A :=
  firstn i l ++ x :: skipn i l.

(* ------------------------------------------------------------------ *)
(** ** stats_utils.normalize_scores_zscore *)

Definition normalize_scores_zscore (scores : dict Q) : dict Q :=
  if Nat.ltb (length scores) 2 then scores
  else
    let max_score := py_max (dict_values scores) in
    if Qltb 15 max_score then
      map (fun '(name, score) =>
             (name, if Qltb 10 score then 10 + (score - 10) * 0.3 else score))
          scores
    else scores.

(* ------------------------------------------------------------------ *)
(** ** Detail messages

    One constructor per message the scorers build; [MText] holds the
    messages that are string literals. Exception texts are kept as the
    exception's name. *)

Inductive msg : Type :=
| MText (s : string)
| MCouldNotRead (path exc : string)
| MCouldNotParse (path exc : string)
| MHighComplexity (complexity : nat) (func path : string) (lineno : nat)
| MAvgComplexity (avg : Q)
| MPep8Violations (errors : nat)
| MMissingModuleDoc (path : string)
| MMissingDoc (name path : string) (lineno : nat)
| MDocCoverage (pct : Q) (documented total : nat)
| MGoodDocstrings (good documented : nat) (pct : Q)
| MFailedParse (path exc : string)
| MNoAST (path : string)
| MErrorAnalyzing (path exc : string)
| MGenericExcept (path : string) (lineno : nat)
| MBareExcept (path : string) (lineno : nat)
| MHandlerQuality (pct : Q) (good total : nat).

Definition NO_PYTHON_FILES : msg := MText "No Python files found.".

(* ------------------------------------------------------------------ *)
(** ** stats_utils.BenchmarkResult *)

(** Values stored in [raw_metrics: Dict[str, Any]]. *)
Inductive metric : Type :=
| MetQ (q : Q)
| MetStr (s : string)
| MetList (l : list Q).

Record BenchmarkResult : Type := {
  score : Q;
  details : list msg;
  raw_metrics : dict metric;
  confidence_interval : Q * Q
}.

(** [BenchmarkResult(score, details, raw_metrics=None, confidence_interval=None)]:
    [raw_metrics or {}] and [confidence_interval or (score, score)]; a
    [Tuple[float, float]] is never empty, hence always truthy. *)
Definition make_BenchmarkResult (score : Q) (details : list msg)
    (raw_metrics : option (dict metric)) (confidence_interval : option (Q * Q))
    : BenchmarkResult :=
  {| score := score;
     details := details;
     raw_metrics := match raw_metrics with Some ((_ :: _) as m) => m | _ => [] end;
     confidence_interval :=
       match confidence_interval with Some ci => ci | None => (score, score) end |}.

(** The values produced by iterating a Python object. *)
Inductive py_item : Type :=
| IFloat (q : Q)
| IDetails (l : list msg).

(** [BenchmarkResult.__iter__]: [iter((self.score, self.details))]. *)
Definition BenchmarkResult_iter (r : BenchmarkResult) : list py_item :=
  [IFloat r.(score); IDetails r.(details)].

(* ------------------------------------------------------------------ *)
(** ** main.compare: collecting, normalizing and weighting the scores *)

(** What a benchmark function may return. *)
Inductive bench_output : Type :=
| OutResult (b : BenchmarkResult)          (* a BenchmarkResult *)
| OutPair (s : Q) (d : list msg)           (* legacy (score, details) tuple *)
| OutFloat (q : Q)                         (* anything [float()] accepts *)
| OutOther.                                (* anything else *)

(** The score part of [_unpack_result] in [compare]. *)
Definition unpack_score (r : bench_output) : Q :=
  match r with
  | OutResult b => b.(score)
  | OutPair s _ => s
  | OutFloat q => q
  | OutOther => 0
  end.

(** The benchmark loop of [compare]: for each [(name, func)] of
    [benchmarks_to_run], the results [func(codebase1)] and [func(codebase2)]
    are unpacked and stored as [raw_scores1[name]] and [raw_scores2[name]]. *)
Definition compare_collect (runs : list (string * bench_output * bench_output))
    : dict Q * dict Q :=
  fold_left (fun '(raw1, raw2) '(name, result1, result2) =>
               (dict_setitem name (unpack_score result1) raw1,
                dict_setitem name (unpack_score result2) raw2))
            runs ([], []).

(** The totals loop of [compare]. *)
Definition compare_totals (names : list string) (benchmark_weights : dict Q)
    (normalized_scores1 normalized_scores2 : dict Q) : Q * Q :=
  fold_left (fun '(total_score1, total_score2) name =>
               let weight := dict_get name benchmark_weights 1 in
               let weighted_score1 := dict_get name normalized_scores1 0 * weight in
               let weighted_score2 := dict_get name normalized_scores2 0 * weight in
               (total_score1 + weighted_score1, total_score2 + weighted_score2))
            names (0, 0).

Record compare_report : Type := {
  raw_scores1 : dict Q;
  raw_scores2 : dict Q;
  normalized_scores1 : dict Q;
  normalized_scores2 : dict Q;
  total_score1 : Q;
  total_score2 : Q
}.

Definition run_name (r : string * bench_output * bench_output) : string :=
  let '(name, _, _) := r in name.

Definition compare_scores (runs : list (string * bench_output * bench_output))
    (benchmark_weights : dict Q) : compare_report :=
  let '(raw1, raw2) := compare_collect runs in
  let n1 := normalize_scores_zscore raw1 in
  let n2 := normalize_scores_zscore raw2 in
  let '(t1, t2) := compare_totals (map run_name runs) benchmark_weights n1 n2 in
  {| raw_scores1 := raw1; raw_scores2 := raw2;
     normalized_scores1 := n1; normalized_scores2 := n2;
     total_score1 := t1; total_score2 := t2 |}.

(* ------------------------------------------------------------------ *)
(** ** main.BUILT_IN_MODULES and _load_benchmarks *)

(** The modules listed in [BUILT_IN_MODULES], by their [__name__]. *)
Definition BUILT_IN_MODULES : list string :=
  ["benchmarks.readability"; "benchmarks.maintainability";
   "benchmarks.performance"; "benchmarks.testability";
   "benchmarks.robustness"; "benchmarks.security";
   "benchmarks.scalability"; "benchmarks.documentation";
   "benchmarks.consistency"; "benchmarks.git_health"]%string.

(** [s.split(sep)[-1]]: the part after the last [sep]. *)
Fixpoint last_segment (sep : ascii) (s : string) (cur : string) : string :=
  match s with
  | EmptyString => cur
  | String c rest =>
      if Ascii.eqb c sep then last_segment sep rest EmptyString
      else last_segment sep rest (cur ++ String c EmptyString)
  end.

(** [s.replace(a, b)] for single characters. *)
Fixpoint replace_char (a b : ascii) (s : string) : string :=
  match s with
  | EmptyString => EmptyString
  | String c rest =>
      String (if Ascii.eqb c a then b else c) (replace_char a b rest)
  end.

(** [s.replace(a, "")] for a single character. *)
Fixpoint remove_char (a : ascii) (s : string) : string :=
  match s with
  | EmptyString => EmptyString
  | String c rest =>
      if Ascii.eqb c a then remove_char a rest else String c (remove_char a rest)
  end.

Definition is_upper (c : ascii) : bool :=
  let n := nat_of_ascii c in Nat.leb 65 n && Nat.leb n 90.
Definition is_lower (c : ascii) : bool :=
  let n := nat_of_ascii c in Nat.leb 97 n && Nat.leb n 122.
Definition is_cased (c : ascii) : bool := is_upper c || is_lower c.
Definition to_upper (c : ascii) : ascii :=
  if is_lower c then ascii_of_nat (nat_of_ascii c - 32) else c.
Definition to_lower (c : ascii) : ascii :=
  if is_upper c then ascii_of_nat (nat_of_ascii c + 32) else c.

(** [str.title()] on ASCII text: a cased character is upper-cased when the
    previous character is uncased, lower-cased otherwise. Only the ASCII
    letters are cased here; Python's Unicode case rules for characters
    beyond ASCII are not modelled. *)
Fixpoint title_from (prev_cased : bool) (s : string) : string :=
  match s with
  | EmptyString => EmptyString
  | String c rest =>
      String (if is_cased c then (if prev_cased then to_lower c else to_upper c) else c)
             (title_from (is_cased c) rest)
  end.

Definition py_title (s : string) : string := title_from false s.

(** The display name computed in [_load_benchmarks]:
    [raw_name.replace("_", " ").title().replace(" ", "")]. *)
Definition display_name_of (module_name : string) : string :=
  let raw_name := last_segment "."%char module_name EmptyString in
  remove_char " "%char (py_title (replace_char "_"%char " "%char raw_name)).

(** [_load_benchmarks]: the mapping from display name to the scorer of the
    module (kept as the module's raw name). *)
Definition _load_benchmarks : dict string :=
  fold_left (fun mapping mod_name =>
               dict_setitem (display_name_of mod_name)
                            (last_segment "."%char mod_name EmptyString) mapping)
            BUILT_IN_MODULES [].

Definition BENCHMARK_FUNCS : dict string := _load_benchmarks.

(* ------------------------------------------------------------------ *)
(** ** Exceptions and the file system *)

(** A computation that returns a value or propagates a Python exception. *)
Inductive py_result (A : Type) : Type :=
| Ok (a : A)
| Raise (exc : string).
Arguments Ok {A} a.
Arguments Raise {A} exc.

Definition py_bind {A B} (m : py_result A) (k : A -> py_result B) : py_result B :=
  match m with Ok a => k a | Raise e => Raise e end.

Notation "x <- m ;; k" := (py_bind m (fun x => k))
  (at level 61, m at next level, right associativity).

(** A [for] loop whose body may raise. *)
Fixpoint py_for {A B} (l : list A) (acc : B) (body : B -> A -> py_result B)
    : py_result B :=
  match l with
  | [] => Ok acc
  | x :: xs => acc' <- body acc x ;; py_for xs acc' body
  end.

(** Outcome of [open(path, 'r', encoding='utf-8')] followed by reading the
    whole file. [UnicodeDecodeError] is a [ValueError]; [FileNotFoundError]
    and the others are [OSError]s (alias [IOError]). *)
Inductive read_result : Type :=
| ROk (text : string)
| RUnicodeDecodeError
| RFileNotFound
| ROSError (exc : string).

(** A codebase: the list [get_python_files(codebase_path)] returns (every
    [*.py] regular file under the root, in [rglob] order) and what reading
    each of them yields. *)
Record codebase : Type := {
  python_files : list string;
  read_file : string -> read_result
}.

Definition get_python_files (cb : codebase) : list string := cb.(python_files).

(* ------------------------------------------------------------------ *)
(** ** Characters and lines *)

(** [str.isspace] on an ASCII character. *)
Definition is_space (c : ascii) : bool :=
  let n := nat_of_ascii c in
  (Nat.leb 9 n && Nat.leb n 13) || (Nat.leb 28 n && Nat.leb n 32).

(** [bool(line.strip())]: the line has a non-whitespace character. *)
Definition strip_nonempty (line : string) : bool :=
  existsb (fun c => negb (is_space c)) (list_ascii_of_string line).

(** Iterating a text file opened in universal-newlines mode: [\r\n] and
    [\r] read as [\n]; each line ends after its [\n]; a last line without
    [\n] is produced when it is not empty. The line terminator is dropped,
    which [line.strip()] would remove anyway. *)
Fixpoint file_lines_aux (cs : list ascii) (cur : list ascii) : list string :=
  match cs with
  | [] => match cur with [] => [] | _ => [string_of_list_ascii (rev cur)] end
  | c :: rest =>
      let n := nat_of_ascii c in
      if Nat.eqb n 10 then string_of_list_ascii (rev cur) :: file_lines_aux rest []
      else if Nat.eqb n 13 then
        let rest' := match rest with
                     | c' :: r => if Nat.eqb (nat_of_ascii c') 10 then r else rest
                     | [] => rest
                     end in
        string_of_list_ascii (rev cur) :: file_lines_aux rest' []
      else file_lines_aux rest (c :: cur)
  end.

Definition file_lines (text : string) : list string :=
  file_lines_aux (list_ascii_of_string text) [].

(* ------------------------------------------------------------------ *)
(** ** stats_utils.get_codebase_size_bucket *)

(** [_count_non_empty_lines(f)]: [sum(1 for line in f if line.strip())]. *)
Definition _count_non_empty_lines (text : string) : nat :=
  fold_left (fun acc line => if strip_nonempty line then S acc else acc)
            (file_lines text) 0%nat.

Definition get_codebase_size_bucket (cb : codebase) : string :=
  let total_loc :=
    fold_left (fun total_loc file_path =>
                 match cb.(read_file) file_path with
                 | ROk text => (total_loc + _count_non_empty_lines text)%nat
                 | _ => total_loc  (* except (UnicodeDecodeError, IOError): continue *)
                 end)
              (get_python_files cb) 0%nat in
  if Nat.ltb total_loc 100 then "small"
  else if Nat.ltb total_loc 1000 then "medium"
  else "large".

(* ------------------------------------------------------------------ *)
(** ** readability.assess_readability *)

(** A function reported by radon's [ComplexityVisitor]. *)
Record func_info : Type := {
  func_name : string;
  func_complexity : nat;
  func_lineno : nat
}.

(** Outcome of [ComplexityVisitor.from_code(source_code)]. *)
Inductive radon_result : Type :=
| RadonOk (functions : list func_info)
| RadonSyntaxError
| RadonValueError
| RadonOtherError (exc : string).

Section Readability.

(** radon's visitor and pycodestyle's [StyleGuide(quiet=True).check_files]
    ([report.total_errors]) are library oracles. *)
Variable complexity_visitor : string -> radon_result.
Variable pep8_total_errors : list string -> nat.
Variable cb : codebase.

Definition _analyze_python_file (file_path : string)
    : py_result (list msg * nat * nat) :=
  match cb.(read_file) file_path with
  | RFileNotFound => Ok ([MCouldNotRead file_path "FileNotFoundError"], 0%nat, 0%nat)
  | ROSError exc => Ok ([MCouldNotRead file_path exc], 0%nat, 0%nat)
  | RUnicodeDecodeError => Raise "UnicodeDecodeError"  (* not an OSError *)
  | ROk source_code =>
      match complexity_visitor source_code with
      | RadonSyntaxError => Ok ([MCouldNotParse file_path "SyntaxError"], 0%nat, 0%nat)
      | RadonValueError => Ok ([MCouldNotParse file_path "ValueError"], 0%nat, 0%nat)
      | RadonOtherError exc => Raise exc
      | RadonOk functions =>
          let '(buffer, complexity_total, function_count) :=
            fold_left (fun '(buffer, complexity_total, function_count) func =>
                         (if Nat.ltb 10 func.(func_complexity)
                          then buffer ++ [MHighComplexity func.(func_complexity)
                                            func.(func_name) file_path func.(func_lineno)]
                          else buffer,
                          (complexity_total + func.(func_complexity))%nat,
                          S function_count))
                      functions ([], 0%nat, 0%nat) in
          Ok (buffer, complexity_total, function_count)
      end
  end.

Definition assess_readability : py_result (Q * list msg) :=
  let python_files := get_python_files cb in
  match python_files with
  | [] => Ok (0, [NO_PYTHON_FILES])
  | _ =>
      st <- py_for python_files ([], 0%nat, 0%nat)
              (fun '(details, total_complexity, total_functions) file_path =>
                 r <- _analyze_python_file file_path ;;
                 let '(file_messages, file_complexity, file_function_count) := r in
                 Ok (details ++ file_messages,
                     (total_complexity + file_complexity)%nat,
                     (total_functions + file_function_count)%nat)) ;;
      let '(details, total_complexity, total_functions) := st in
      let average_complexity :=
        if Nat.ltb 0 total_functions
        then qn total_complexity / qn total_functions else 0 in
      let complexity_score := py_max2 0 (10 - (average_complexity - 5)) in
      let details := details ++ [MAvgComplexity average_complexity] in
      let pep8_errors := pep8_total_errors python_files in
      let details := details ++ [MPep8Violations pep8_errors] in
      let pep8_score := py_max2 0 (10 - qn pep8_errors / 5) in
      let readability_score := 0.6 * complexity_score + 0.4 * pep8_score in
      Ok (py_min2 10 (py_max2 0 readability_score), details)
  end.

End Readability.

(* ------------------------------------------------------------------ *)
(** ** The Python AST, as the scorers see it *)

Inductive expr : Type :=
| EName (id : string)
| EOtherExpr.

Inductive node_kind : Type :=
| KModule
| KFunctionDef
| KAsyncFunctionDef
| KClassDef
| KImport (names : list string)              (* the [alias.name]s *)
| KImportFrom (module : option string)       (* [node.module] *)
| KExceptHandler (type : option expr)        (* [node.type] *)
| KOther.

(** An AST node; [node_docstring] is [ast.get_docstring(node)] (meaningful
    for modules, classes and functions). *)
Record ast_node : Type := {
  kind : node_kind;
  node_name : string;
  lineno : nat;
  node_docstring : option string
}.

(** A parsed module: [ast.get_docstring(tree)] and the nodes of
    [ast.walk(tree)], in walk order. *)
Record ast_tree : Type := {
  module_docstring : option string;
  walk : list ast_node
}.

(** Outcome of [ast.parse(source)]. *)
Inductive ast_result : Type :=
| AstOk (t : ast_tree)
| AstSyntaxError
| AstOtherError (exc : string).

(** [if ds:] on an [Optional[str]]: [None] and [""] are falsy. *)
Definition doc_truthy (ds : option string) : option string :=
  match ds with
  | Some (String _ _ as s) => Some s
  | _ => None
  end.

Section ParseFile.

Variable ast_parse : string -> ast_result.
Variable cb : codebase.

(** [utils.parse_file] ([_safe_parse_file]): [None] on [SyntaxError],
    [UnicodeDecodeError] and [FileNotFoundError]; other errors propagate. *)
Definition parse_file (file_path : string) : py_result (option ast_tree) :=
  match cb.(read_file) file_path with
  | ROk source =>
      match ast_parse source with
      | AstOk t => Ok (Some t)
      | AstSyntaxError => Ok None
      | AstOtherError exc => Raise exc
      end
  | RUnicodeDecodeError | RFileNotFound => Ok None
  | ROSError exc => Raise exc
  end.

End ParseFile.

(* ------------------------------------------------------------------ *)
(** ** documentation._good_docstring *)

(** [str.splitlines()] on ASCII text: breaks at [\n], [\r], [\r\n], [\v],
    [\f], [\x1c], [\x1d], [\x1e]; no empty last line. *)
Definition is_line_break (c : ascii) : bool :=
  let n := nat_of_ascii c in
  (Nat.leb 10 n && Nat.leb n 13) || (Nat.leb 28 n && Nat.leb n 30).

Fixpoint splitlines_aux (cs : list ascii) (cur : list ascii) : list string :=
  match cs with
  | [] => match cur with [] => [] | _ => [string_of_list_ascii (rev cur)] end
  | c :: rest =>
      if is_line_break c then
        let rest' :=
          if Nat.eqb (nat_of_ascii c) 13 then
            match rest with
            | c' :: r => if Nat.eqb (nat_of_ascii c') 10 then r else rest
            | [] => rest
            end
          else rest in
        string_of_list_ascii (rev cur) :: splitlines_aux rest' []
      else splitlines_aux rest (c :: cur)
  end.

Definition splitlines (s : string) : list string :=
  splitlines_aux (list_ascii_of_string s) [].

(** [str.lower()] on ASCII text; characters beyond ASCII are kept as they
    are (Python's Unicode lower-casing of them is not modelled). *)
Definition py_lower (s : string) : string :=
  string_of_list_ascii (map to_lower (list_ascii_of_string s)).

(** [sub in s]. *)
Fixpoint py_contains (sub s : string) : bool :=
  prefix sub s ||
  match s with
  | EmptyString => false
  | String _ rest => py_contains sub rest
  end.

Definition _good_docstring (ds : string) : bool :=
  let raw_lines := splitlines ds in
  let non_blank_count := length (filter strip_nonempty raw_lines) in
  if Nat.ltb non_blank_count 3 then false
  else
    (* consecutive_blanks, excessive_blanks; the loop breaks once excessive *)
    let '(_, excessive_blanks) :=
      fold_left (fun (st : nat * bool) ln =>
                   let '(consecutive_blanks, excessive_blanks) := st in
                   if excessive_blanks then (consecutive_blanks, true)
                   else if negb (strip_nonempty ln) then
                     let consecutive_blanks := S consecutive_blanks in
                     (consecutive_blanks, Nat.ltb 5 consecutive_blanks)
                   else (0%nat, false))
                raw_lines (0%nat, false) in
    if excessive_blanks then false
    else
      let lowered := py_lower ds in
      let has_args := py_contains "args:" lowered || py_contains "parameters:" lowered in
      let has_returns := py_contains "returns:" lowered in
      has_args && has_returns.

(* ------------------------------------------------------------------ *)
(** ** documentation.assess_documentation *)

Definition is_documentable (k : node_kind) : bool :=
  match k with
  | KFunctionDef | KAsyncFunctionDef | KClassDef => true
  | _ => false
  end.

(** Loop state: [(total_entities, documented_entities, good_docstrings, details)]. *)
Definition doc_state : Type := (nat * nat * nat * list msg)%type.

(** One documentable entity with docstring [ds]; [missing] is the message
    recorded when the docstring is absent. *)
Definition doc_count (st : doc_state) (ds : option string) (missing : msg) : doc_state :=
  let '(total_entities, documented_entities, good_docstrings, details) := st in
  match doc_truthy ds with
  | Some d =>
      (S total_entities, S documented_entities,
       if _good_docstring d then S good_docstrings else good_docstrings, details)
  | None => (S total_entities, documented_entities, good_docstrings, details ++ [missing])
  end.

Definition doc_file (file_path : string) (tree : ast_tree) (st : doc_state) : doc_state :=
  let st := doc_count st tree.(module_docstring) (MMissingModuleDoc file_path) in
  fold_left (fun st node =>
               if is_documentable node.(kind)
               then doc_count st node.(node_docstring)
                      (MMissingDoc node.(node_name) file_path node.(lineno))
               else st)
            tree.(walk) st.

Definition NO_DOCUMENTABLE : msg :=
  MText "No documentable entities (classes, functions) found.".

(** One iteration of the file loop of [assess_documentation]; an exception
    of [parse_file] propagates. *)
Definition doc_step (ast_parse : string -> ast_result) (cb : codebase)
    (st : doc_state) (file_path : string) : py_result doc_state :=
  tree <- parse_file ast_parse cb file_path ;;
  match tree with
  | None => Ok st
  | Some t => Ok (doc_file file_path t st)
  end.

Definition assess_documentation (ast_parse : string -> ast_result) (cb : codebase)
    : py_result (Q * list msg) :=
  let python_files := get_python_files cb in
  match python_files with
  | [] => Ok (0, [NO_PYTHON_FILES])
  | _ =>
      st <- py_for python_files (0%nat, 0%nat, 0%nat, []) (doc_step ast_parse cb) ;;
      let '(total_entities, documented_entities, good_docstrings, details) := st in
      if Nat.eqb total_entities 0 then Ok (0, [NO_DOCUMENTABLE])
      else
        let doc_coverage := qn documented_entities / qn total_entities * 100 in
        let quality_ratio :=
          if Nat.eqb documented_entities 0 then 0
          else qn good_docstrings / qn documented_entities in
        let coverage_score := doc_coverage / 10 in
        let intrinsic_quality_score := quality_ratio * 10 in
        let quality_score := intrinsic_quality_score in
        let final_score := (coverage_score + quality_score) / 2 in
        let details := py_insert 0 (MDocCoverage doc_coverage documented_entities
                                                 total_entities) details in
        let details := py_insert 1 (MGoodDocstrings good_docstrings documented_entities
                                                    (quality_ratio * 100)) details in
        Ok (py_min2 10 (py_max2 0 final_score), details)
  end.

(* ------------------------------------------------------------------ *)
(** ** robustness._analyze_file_ast and assess_robustness *)

(** One node of the walk in [_analyze_file_ast]; the state is
    [(uses_logging, total_handlers, good_handlers, file_details)]. *)
Definition _analyze_node (file_path : string) (st : bool * nat * nat * list msg)
    (node : ast_node) : bool * nat * nat * list msg :=
  let '(uses_logging, total_handlers, good_handlers, file_details) := st in
  let uses_logging :=
    match node.(kind) with
    | KImport names =>
        if existsb (String.eqb "logging") names then true else uses_logging
    | KImportFrom (Some m) =>
        if String.eqb m "logging" then true else uses_logging
    | _ => uses_logging
    end in
  match node.(kind) with
  | KExceptHandler type =>
      let total_handlers := S total_handlers in
      match type with
      | Some (EName id) =>
          if String.eqb id "Exception"
          then (uses_logging, total_handlers, good_handlers,
                file_details ++ [MGenericExcept file_path node.(lineno)])
          else (uses_logging, total_handlers, S good_handlers, file_details)
      | Some EOtherExpr =>
          (uses_logging, total_handlers, S good_handlers, file_details)
      | None =>
          (uses_logging, total_handlers, good_handlers,
           file_details ++ [MBareExcept file_path node.(lineno)])
      end
  | _ => (uses_logging, total_handlers, good_handlers, file_details)
  end.

(** Per-file result: [(uses_logging, total_handlers, good_handlers, file_details)]. *)
Definition _analyze_file_ast (tree : ast_tree) (file_path : string)
    : bool * nat * nat * list msg :=
  fold_left (_analyze_node file_path) tree.(walk) (false, 0%nat, 0%nat, []).

Definition LOGGING_USED : msg := MText "Codebase appears to use the 'logging' module.".
Definition LOGGING_UNUSED : msg :=
  MText "Codebase does not appear to use the 'logging' module.".

(** Loop state: [(total_handlers, good_handlers, uses_logging, details)]. *)
Definition rob_state : Type := (nat * nat * bool * list msg)%type.

(** One iteration of the file loop; every exception of [parse_file] is
    caught ([except Exception]), so the loop never raises. *)
Definition rob_step (ast_parse : string -> ast_result) (cb : codebase)
    (st : rob_state) (file_path : string) : rob_state :=
  let '(total_handlers, good_handlers, uses_logging, details) := st in
  match parse_file ast_parse cb file_path with
  | Raise exc =>
      (total_handlers, good_handlers, uses_logging, details ++ [MFailedParse file_path exc])
  | Ok None =>
      (total_handlers, good_handlers, uses_logging, details ++ [MNoAST file_path])
  | Ok (Some tree) =>
      let '(file_uses_logging, file_total, file_good, file_details) :=
        _analyze_file_ast tree file_path in
      ((total_handlers + file_total)%nat, (good_handlers + file_good)%nat,
       (if file_uses_logging then true else uses_logging),
       details ++ file_details)
  end.

Definition assess_robustness (ast_parse : string -> ast_result) (cb : codebase)
    : py_result (Q * list msg) :=
  let python_files := get_python_files cb in
  match python_files with
  | [] => Ok (0, [NO_PYTHON_FILES])
  | _ =>
      let '(total_handlers, good_handlers, uses_logging, details) :=
        fold_left (rob_step ast_parse cb) python_files (0%nat, 0%nat, false, []) in
      let details :=
        py_insert 0 (if uses_logging then LOGGING_USED else LOGGING_UNUSED) details in
      if Nat.eqb total_handlers 0 then
        Ok (if uses_logging then 5 else 2, details)
      else
        let handler_quality := qn good_handlers / qn total_handlers in
        let handler_score := handler_quality * 8 in
        let handler_score := if uses_logging then handler_score + 2 else handler_score in
        let details := py_insert 1 (MHandlerQuality (handler_quality * 100)
                                                    good_handlers total_handlers) details in
        Ok (py_min2 10 (py_max2 0 handler_score), details)
  end.

(* ------------------------------------------------------------------ *)
(** ** performance.assess_performance *)

(** [assess_performance] up to its early exit. [analysis] stands for the
    rest of the function (static anti-pattern scan, optional profiling run,
    size adjustment, confidence interval), which runs only when there are
    Python files. *)
Definition assess_performance
    (analysis : codebase -> list string -> py_result BenchmarkResult)
    (cb : codebase) : py_result BenchmarkResult :=
  let python_files := get_python_files cb in
  match python_files with
  | [] => Ok (make_BenchmarkResult 0 [NO_PYTHON_FILES] None None)
  | _ => analysis cb python_files
  end.

(* ------------------------------------------------------------------ *)
(** ** stats_utils: size adjustment and confidence intervals *)

(** [_clamp_max(value, max_value)]. *)
Definition _clamp_max (value max_value : Q) : Q :=
  if Qle_bool value max_value then value else max_value.

(** The multiplier table of [adjust_score_for_size]. *)
Definition adjustments : dict (dict Q) :=
  [("maintainability", [("small", 1.5); ("medium", 1.0); ("large", 0.9)]);
   ("readability", [("small", 1.2); ("medium", 1.0); ("large", 0.95)]);
   ("default", [("small", 1.1); ("medium", 1.0); ("large", 1.0)])]%string.

(** [adjustments.get(metric_type, adjustments["default"]).get(bucket, 1.0)];
    the key ["default"] is present, so the subscript never raises. *)
Definition adjust_score_for_size (raw_score : Q) (bucket metric_type : string) : Q :=
  let default := match dict_lookup "default"%string adjustments with
                 | Some d => d
                 | None => []
                 end in
  let multiplier := dict_get bucket (dict_get metric_type adjustments default) 1 in
  _clamp_max (raw_score * multiplier) 10.

(** [calculate_confidence_interval(scores)]; [t_interval] stands for the
    Student-t interval computed with numpy and scipy from two or more
    samples. *)
Definition calculate_confidence_interval {A} (t_interval : list A -> Q * Q)
    (scores : list A) : Q * Q :=
  if Nat.ltb (length scores) 2 then (0, 0) else t_interval scores.

(** What [BenchmarkResult.format_score_with_ci] shows: the score alone, or
    the score with [± half the interval width] (the float formatting
    itself is not modelled). *)
Inductive score_display : Type :=
| ShowScore (s : Q)
| ShowScoreRange (s half_range : Q).

Definition format_score_with_ci (r : BenchmarkResult) : score_display :=
  let '(lo, hi) := r.(confidence_interval) in
  if Qeq_bool lo hi then ShowScore r.(score)
  else ShowScoreRange r.(score) ((hi - lo) / 2).

(** The end of [security.assess_security], from the bias adjustment on:
    [final_score] and [static_score] come from the static (and optional
    dynamic) scans, [raw_metrics] holds their metrics. *)
Definition assess_security_finish (t_interval : list metric -> Q * Q) (cb : codebase)
    (static_score final_score : Q) (details : list msg) (raw_metrics : dict metric)
    : BenchmarkResult :=
  let size_bucket := get_codebase_size_bucket cb in
  let adjusted_score := adjust_score_for_size final_score size_bucket "security" in
  let raw_metrics := dict_setitem "size_bucket" (MetStr size_bucket) raw_metrics in
  let raw_metrics := dict_setitem "unadjusted_score" (MetQ final_score) raw_metrics in
  let score_samples := [MetQ static_score] in
  let score_samples :=
    match dict_lookup "dynamic_score" raw_metrics with
    | Some m => score_samples ++ [m]
    | None => score_samples
    end in
  let confidence_interval := calculate_confidence_interval t_interval score_samples in
  make_BenchmarkResult adjusted_score details (Some raw_metrics) (Some confidence_interval).

(* ------------------------------------------------------------------ *)
(** ** main: names, skip tokens and benchmark selection *)

(** [str.isalnum] on an ASCII character. *)
Definition is_alnum (c : ascii) : bool :=
  let n := nat_of_ascii c in is_cased c || (Nat.leb 48 n && Nat.leb n 57).

(** [_to_display(name)]: [name.replace('_', ' ').title().replace(' ', '')]. *)
Definition _to_display (name : string) : string :=
  remove_char " "%char (py_title (replace_char "_"%char " "%char name)).

(** [os.path.basename] (POSIX): the part after the last ['/']. *)
Definition basename (p : string) : string := last_segment "/"%char p EmptyString.

(** [_safe_filename(name)]. *)
Definition _safe_filename (name : string) : string :=
  let base := basename name in
  let sanitized :=
    string_of_list_ascii
      (filter (fun ch => is_alnum ch || existsb (Ascii.eqb ch) ["-"; "_"; "."]%char)
              (list_ascii_of_string base)) in
  let sanitized := match sanitized with EmptyString => "file"%string | _ => sanitized end in
  string_of_list_ascii (firstn 255 (list_ascii_of_string sanitized)).

(** Dropping the leading characters that satisfy [p]. *)
Fixpoint drop_while (p : ascii -> bool) (cs : list ascii) : list ascii :=
  match cs with
  | [] => []
  | c :: rest => if p c then drop_while p rest else cs
  end.

(** [s.strip(chars)] for the characters satisfying [p]. *)
Definition strip_by (p : ascii -> bool) (s : string) : string :=
  string_of_list_ascii (rev (drop_while p (rev (drop_while p (list_ascii_of_string s))))).

(** [s.strip()]. *)
Definition py_strip (s : string) : string := strip_by is_space s.

(** [_slugify(value)]. *)
Definition _slugify (value : string) : string :=
  strip_by (fun ch => Ascii.eqb ch "-"%char)
    (string_of_list_ascii
       (map (fun ch => if is_alnum ch || existsb (Ascii.eqb ch) ["-"; "_"]%char
                       then ch else "-"%char)
            (list_ascii_of_string value))).

(** [s.split(sep)] for a single character. *)
Fixpoint py_split_aux (sep : ascii) (s : string) (cur : string) : list string :=
  match s with
  | EmptyString => [cur]
  | String c rest =>
      if Ascii.eqb c sep then cur :: py_split_aux sep rest EmptyString
      else py_split_aux sep rest (cur ++ String c EmptyString)
  end.

Definition py_split (sep : ascii) (s : string) : list string := py_split_aux sep s EmptyString.

(** The [skip_set] of [compare] and [compare_collections]:
    [{_to_display(s.strip()) for s in skip.split(',') if s.strip()}]; the
    set is only used for membership, so a list stands for it. *)
Definition parse_skip (skip : string) : list string :=
  map (fun s => _to_display (py_strip s))
      (filter (fun s => negb (String.eqb (py_strip s) "")) (py_split ","%char skip)).

(** [x in s] for a set of strings. *)
Definition py_in (x : string) (s : list string) : bool := existsb (String.eqb x) s.

(** [bool(a & b)]: the two sets share an element. *)
Definition intersects (a b : list string) : bool := existsb (fun x => py_in x b) a.

(** The [SUPPORTED_LANGUAGES] attribute of each module, [None] for the
    modules that do not define it (performance).
    Modelled from the spec: benchmarks/maintainability.py is not in src/
    (main.py imports it and lists it in its built-in modules); it is taken
    to define no [SUPPORTED_LANGUAGES], so that main.py's default
    [{"python"}] applies to it. *)
Definition SUPPORTED_LANGUAGES (mod_name : string) : option (list string) :=
  if String.eqb mod_name "benchmarks.scalability"%string then Some ["any"%string]
  else if String.eqb mod_name "benchmarks.git_health"%string then Some ["any"%string]
  else if String.eqb mod_name "benchmarks.maintainability"%string then None
  else if String.eqb mod_name "benchmarks.performance"%string then None
  else Some ["python"%string].

(** [BENCHMARK_LANGS]: display name to the lower-cased supported languages,
    [{"python"}] when the module defines none. (No module sets the string
    ["any"], so the [langs == "any"] branch never fires.) *)
Definition BENCHMARK_LANGS : dict (list string) :=
  fold_left (fun m mod_name =>
               let langs := match SUPPORTED_LANGUAGES mod_name with
                            | Some l => l
                            | None => ["python"]%string
                            end in
               dict_setitem (display_name_of mod_name) (map py_lower langs) m)
            BUILT_IN_MODULES [].

(** [benchmarks_to_run] in [compare]: the benchmarks not skipped whose
    languages include ["any"] or meet the languages of either codebase. *)
Definition benchmarks_to_run (skip_set langs1 langs2 : list string) : dict string :=
  filter (fun '(name, _) =>
            if py_in name skip_set then false
            else
              let supported := dict_get name BENCHMARK_LANGS ["any"]%string in
              py_in "any"%string supported || intersects langs1 supported
              || intersects langs2 supported)
         BENCHMARK_FUNCS.

(** The benchmarks [_analyze_single_codebase] runs on a codebase with
    languages [langs]. *)
Definition single_codebase_benchmarks (skip_set langs : list string) : dict string :=
  filter (fun '(name, _) =>
            if py_in name skip_set then false
            else
              let supported := dict_get name BENCHMARK_LANGS ["any"]%string in
              if negb (py_in "any"%string supported) && negb (intersects langs supported)
              then false else true)
         BENCHMARK_FUNCS.

(** The winner column of the comparison tables. *)
Inductive winner : Type :=
| Codebase1
| Codebase2
| Tie.

Definition pick_winner (score1 score2 : Q) : winner :=
  if Qltb score2 score1 then Codebase1
  else if Qltb score1 score2 then Codebase2
  else Tie.

(** The overall winner of [compare]. *)
Definition compare_winner (runs : list (string * bench_output * bench_output))
    (benchmark_weights : dict Q) : winner :=
  let r := compare_scores runs benchmark_weights in
  pick_winner r.(total_score1) r.(total_score2).

(** [sum(vs)]. *)
Definition py_sum (vs : list Q) : Q := fold_left Qplus vs 0.

(** [_collect_folder_avg], given the raw-score dicts that
    [_analyze_single_codebase] returns for the repositories of the folder
    (in [iterdir] order): the per-benchmark averages and the number of
    repositories. *)
Definition _collect_folder_avg (repo_scores : list (dict Q)) : dict Q * nat :=
  let aggregate :=
    fold_left (fun aggregate raw_scores =>
                 fold_left (fun aggregate '(k, v) =>
                              dict_setitem k (dict_get k aggregate [] ++ [v]) aggregate)
                           raw_scores aggregate)
              repo_scores [] in
  (map (fun '(k, vs) => (k, match vs with
                            | [] => 0
                            | _ => py_sum vs / qn (length vs)
                            end)) aggregate,
   length repo_scores).

(* ------------------------------------------------------------------ *)
(** ** Reference definitions for the properties below

    These follow the properties' own words; each theorem compares one of
    them with the definitions translated from the source. *)

(** Exact sum of a list of rationals. *)
Definition qsum (l : list Q) : Q := fold_right Qplus 0 l.




(** The light scaling applied to one value [x] of the dict [scores]: values
    above 10 are compressed to [10 + (x - 10) * 0.3] when the dict has at
    least two entries one of which exceeds 15; otherwise [x] is kept. *)
Definition light_scale (scores : dict Q) (x : Q) : Q :=
  if Nat.leb 2 (length scores) && existsb (Qltb 15) (dict_values scores) && Qltb 10 x
  then 10 + (x - 10) * 0.3
  else x.

(** The user-supplied weight of a benchmark, 1.0 when absent. *)
Definition weight_of (benchmark_weights : dict Q) (name : string) : Q :=
  match dict_lookup name benchmark_weights with Some w => w | None => 1 end.

(** The raw-score dict of one codebase, one entry per benchmark run. *)
Definition raw_of_runs1 (runs : list (string * bench_output * bench_output)) : dict Q :=
  map (fun '(name, result1, _) => (name, unpack_score result1)) runs.
Definition raw_of_runs2 (runs : list (string * bench_output * bench_output)) : dict Q :=
  map (fun '(name, _, result2) => (name, unpack_score result2)) runs.

(** Clamping to [[0, 10]]. *)
Definition clamp10 (x : Q) : Q := Qmin 10 (Qmax 0 x).

(** Non-blank lines of a text, and the total over the readable files. *)
Definition non_blank_lines (text : string) : nat :=
  length (filter strip_nonempty (file_lines text)).

Definition readable_non_blank_total (cb : codebase) : nat :=
  list_sum (map (fun p => match cb.(read_file) p with
                          | ROk text => non_blank_lines text
                          | _ => 0%nat
                          end) (python_files cb)).

(** The trees of the files [parse_file] parses. *)
Definition parsed_trees (ast_parse : string -> ast_result) (cb : codebase)
    : list ast_tree :=
  flat_map (fun p => match parse_file ast_parse cb p with
                     | Ok (Some t) => [t]
                     | _ => []
                     end) (python_files cb).

(** Documentable entities of a tree (the module, then its classes and
    functions), by their docstring. *)
Definition file_entities (t : ast_tree) : list (option string) :=
  t.(module_docstring)
    :: map node_docstring (filter (fun n => is_documentable n.(kind)) t.(walk)).

Definition present_docstrings (ents : list (option string)) : list string :=
  flat_map (fun o => match doc_truthy o with Some d => [d] | None => [] end) ents.

(** Average of the coverage component and the quality component, clamped. *)
Definition documentation_score_spec (ents : list (option string)) : Q :=
  let present := present_docstrings ents in
  let coverage_component := qn (length present) / qn (length ents) * 100 / 10 in
  let quality_component :=
    match present with
    | [] => 0
    | _ => qn (length (filter _good_docstring present)) / qn (length present) * 10
    end in
  clamp10 ((coverage_component + quality_component) / 2).

(** Exception handlers of a tree, by their [type]. *)
Definition file_handlers (t : ast_tree) : list (option expr) :=
  flat_map (fun n => match n.(kind) with KExceptHandler ty => [ty] | _ => [] end)
           t.(walk).

(** A handler naming an exception type other than bare [except:] and
    [except Exception]. *)
Definition specific_handler (ty : option expr) : bool :=
  match ty with
  | None => false
  | Some (EName id) => negb (String.eqb id "Exception")
  | Some EOtherExpr => true
  end.

(** The tree contains [import logging] or [from logging import ...]. *)
Definition imports_logging (t : ast_tree) : bool :=
  existsb (fun n => match n.(kind) with
                    | KImport names => existsb (String.eqb "logging") names
                    | KImportFrom (Some m) => String.eqb m "logging"
                    | _ => false
                    end) t.(walk).

Definition robustness_score_spec (trees : list ast_tree) : Q :=
  let handlers := flat_map file_handlers trees in
  let logging := existsb imports_logging trees in
  match length handlers with
  | O => if logging then 5 else 2
  | total =>
      clamp10 (qn (length (filter specific_handler handlers)) / qn total * 8
               + (if logging then 2 else 0))
  end.

(* ------------------------------------------------------------------ *)
(** ** Sample inputs *)

Definition two_scores : dict Q := [("a", 1); ("b", 2)]%string.
Definition outlier_scores : dict Q := [("a", 1); ("b", 20)]%string.

Definition sample_runs : list (string * bench_output * bench_output) :=
  [("Readability", OutPair 20 [], OutFloat 3);
   ("Security", OutFloat 5, OutResult (make_BenchmarkResult 7 [] None None))]%string.

Definition empty_codebase : codebase :=
  {| python_files := []; read_file := fun _ => RFileNotFound |}.

Definition sample_tree : ast_tree :=
  {| module_docstring := Some "Helpers.";
     walk := [
       {| kind := KModule; node_name := ""; lineno := 0; node_docstring := None |};
       {| kind := KImport ["logging"]; node_name := ""; lineno := 1; node_docstring := None |};
       {| kind := KFunctionDef; node_name := "load"; lineno := 3;
          node_docstring := Some "Load.

Args:
  path: file.
Returns:
  text." |};
       {| kind := KExceptHandler None; node_name := ""; lineno := 8; node_docstring := None |};
       {| kind := KExceptHandler (Some (EName "ValueError")); node_name := "";
          lineno := 10; node_docstring := None |};
       {| kind := KClassDef; node_name := "Store"; lineno := 12; node_docstring := None |}] |}%string.

Definition sample_codebase : codebase :=
  {| python_files := ["pkg/a.py"; "pkg/b.py"];
     read_file := fun p => if String.eqb p "pkg/a.py" then ROk "import logging
" else RFileNotFound |}%string.

(** Running [compare] with the two codebases exchanged: each benchmark's
    pair of results is swapped. *)
Definition swap_run (r : string * bench_output * bench_output)
    : string * bench_output * bench_output :=
  let '(name, result1, result2) := r in (name, result2, result1).

Definition flip_winner (w : winner) : winner :=
  match w with Codebase1 => Codebase2 | Codebase2 => Codebase1 | Tie => Tie end.

(** The size buckets in increasing order. *)
Definition bucket_rank (bucket : string) : nat :=
  if String.eqb bucket "small"%string then 0
  else if String.eqb bucket "medium"%string then 1
  else 2.

(* ------------------------------------------------------------------ *)
(** * Proofs *)

(** ** Helper lemmas *)

(** Splits an equation between tuples into its components and closes the
    arithmetic ones. *)
Ltac tuple_eq :=
  repeat match goal with |- (_, _) = (_, _) => f_equal end; try lia.

Lemma Qltb_true x y : Qltb x y = true <-> x < y.
Proof.
  unfold Qltb. rewrite negb_true_iff. split.
  - intro H. apply Qnot_le_lt. intro H'. apply Qle_bool_iff in H'. congruence.
  - intro H. destruct (Qle_bool y x) eqn:E; [|reflexivity].
    apply Qle_bool_iff in E. exfalso. apply (Qlt_not_le _ _ H E).
Qed.

Lemma Qltb_false x y : Qltb x y = false <-> y <= x.
Proof.
  unfold Qltb. rewrite negb_false_iff. apply Qle_bool_iff.
Qed.

Lemma py_max2_Qmax a b : py_max2 a b == Qmax a b.
Proof.
  unfold py_max2. destruct (Qltb a b) eqn:E.
  - apply Qltb_true in E. rewrite Q.max_r; [reflexivity | apply Qlt_le_weak; exact E].
  - apply Qltb_false in E. rewrite Q.max_l; [reflexivity | exact E].
Qed.

Lemma py_min2_Qmin a b : py_min2 a b == Qmin a b.
Proof.
  unfold py_min2. destruct (Qltb b a) eqn:E.
  - apply Qltb_true in E. rewrite Q.min_r; [reflexivity | apply Qlt_le_weak; exact E].
  - apply Qltb_false in E. rewrite Q.min_l; [reflexivity | exact E].
Qed.

Lemma clamp10_bounds x : 0 <= clamp10 x /\ clamp10 x <= 10.
Proof.
  unfold clamp10. split.
  - apply Q.min_glb; [lra | apply Q.le_max_l].
  - apply Q.le_min_l.
Qed.

Lemma py_clamp_eq x : py_min2 10 (py_max2 0 x) == clamp10 x.
Proof.
  unfold clamp10. rewrite py_min2_Qmin. rewrite py_max2_Qmax. reflexivity.
Qed.

Lemma py_clamp_bounds x : 0 <= py_min2 10 (py_max2 0 x) /\ py_min2 10 (py_max2 0 x) <= 10.
Proof.
  rewrite py_clamp_eq. apply clamp10_bounds.
Qed.

(** [fold_left py_max2] returns one of the values and bounds all of them. *)
Lemma fold_py_max2_spec xs acc :
  (fold_left py_max2 xs acc = acc \/ In (fold_left py_max2 xs acc) xs) /\
  acc <= fold_left py_max2 xs acc /\
  Forall (fun v => v <= fold_left py_max2 xs acc) xs.
Proof.
  revert acc. induction xs as [|x xs IH]; intro acc; simpl.
  - split; [left; reflexivity | split; [apply Qle_refl | constructor]].
  - destruct (IH (py_max2 acc x)) as [Hin [Hacc Hall]].
    assert (Hm : acc <= py_max2 acc x /\ x <= py_max2 acc x).
    { unfold py_max2. destruct (Qltb acc x) eqn:E.
      - apply Qltb_true in E. split; [apply Qlt_le_weak; exact E | apply Qle_refl].
      - apply Qltb_false in E. split; [apply Qle_refl | exact E]. }
    destruct Hm as [Hm1 Hm2].
    split; [| split].
    + destruct Hin as [Heq | Hin]; [| right; right; exact Hin].
      rewrite Heq. unfold py_max2. destruct (Qltb acc x); [right; left; reflexivity | left; reflexivity].
    + eapply Qle_trans; [exact Hm1 | exact Hacc].
    + constructor; [eapply Qle_trans; [exact Hm2 | exact Hacc] | exact Hall].
Qed.

Lemma py_max_spec l :
  l <> [] -> In (py_max l) l /\ Forall (fun v => v <= py_max l) l.
Proof.
  destruct l as [|x xs]; [congruence|]. intros _. simpl.
  destruct (fold_py_max2_spec xs x) as [Hin [Hacc Hall]].
  split.
  - destruct Hin as [Heq | Hin]; [left; symmetry; exact Heq | right; exact Hin].
  - constructor; assumption.
Qed.

Lemma py_max_gt15 l : l <> [] -> Qltb 15 (py_max l) = existsb (Qltb 15) l.
Proof.
  intro Hne. destruct (py_max_spec l Hne) as [Hin Hall].
  destruct (Qltb 15 (py_max l)) eqn:E; symmetry.
  - apply existsb_exists. exists (py_max l). split; assumption.
  - apply Qltb_false in E. apply not_true_iff_false. intro H.
    apply existsb_exists in H. destruct H as [v [Hv Hlt]].
    apply Qltb_true in Hlt. rewrite Forall_forall in Hall.
    specialize (Hall v Hv). lra.
Qed.

Lemma dict_lookup_map_values (f : Q -> Q) k (d : dict Q) :
  dict_lookup k (map (fun '(name, s) => (name, f s)) d) = option_map f (dict_lookup k d).
Proof.
  induction d as [|[k' v] d IH]; simpl; [reflexivity|].
  destruct (String.eqb k k'); [reflexivity | exact IH].
Qed.

Lemma dict_lookup_In {V} k (d : dict V) v : dict_lookup k d = Some v -> In v (dict_values d).
Proof.
  induction d as [|[k' v'] d IH]; simpl; [discriminate|].
  destruct (String.eqb k k'); [intro H; inversion H; left; reflexivity | intro H; right; auto].
Qed.

(** The per-key behaviour of [normalize_scores_zscore]. *)
Lemma normalize_lookup scores k x :
  dict_lookup k scores = Some x ->
  dict_lookup k (normalize_scores_zscore scores) = Some (light_scale scores x).
Proof.
  intro Hk. unfold normalize_scores_zscore, light_scale.
  destruct (Nat.ltb (length scores) 2) eqn:Hlen.
  - apply Nat.ltb_lt in Hlen.
    replace (Nat.leb 2 (length scores)) with false by (symmetry; apply Nat.leb_gt; lia).
    simpl. exact Hk.
  - apply Nat.ltb_ge in Hlen.
    replace (Nat.leb 2 (length scores)) with true by (symmetry; apply Nat.leb_le; lia).
    assert (Hne : dict_values scores <> []).
    { unfold dict_values. destruct scores; simpl in *; [lia | discriminate]. }
    rewrite (py_max_gt15 _ Hne). simpl.
    destruct (existsb (Qltb 15) (dict_values scores)); simpl.
    + rewrite (dict_lookup_map_values (fun score =>
          if Qltb 10 score then 10 + (score - 10) * 0.3 else score)).
      rewrite Hk. reflexivity.
    + exact Hk.
Qed.




(* ------------------------------------------------------------------ *)
(** ** normalize_scores_zscore *)




(** C9: [normalize_scores_zscore] never increases a score, keeps every
    score at most 10.0, and is the identity on dicts with fewer than two
    entries or whose values are all at most 15.0. *)
Theorem normalize_scores_never_increase (scores : dict Q) :
  (forall k x, dict_lookup k scores = Some x ->
     exists y, dict_lookup k (normalize_scores_zscore scores) = Some y /\
               y <= x /\ (x <= 10 -> y = x)) /\
  ((length scores < 2)%nat \/ Forall (fun v => v <= 15) (dict_values scores) ->
     normalize_scores_zscore scores = scores).
Proof.
  split.
  - intros k x Hk. exists (light_scale scores x).
    split; [apply normalize_lookup; exact Hk|].
    unfold light_scale.
    destruct (Nat.leb 2 (length scores) && existsb (Qltb 15) (dict_values scores)
              && Qltb 10 x) eqn:E.
    + apply andb_true_iff in E. destruct E as [_ E]. apply Qltb_true in E.
      split; [lra | intro; lra].
    + split; [apply Qle_refl | reflexivity].
  - intros [Hlen | Hall]; unfold normalize_scores_zscore.
    + replace (Nat.ltb (length scores) 2) with true by (symmetry; apply Nat.ltb_lt; exact Hlen).
      reflexivity.
    + destruct (Nat.ltb (length scores) 2) eqn:Hlen; [reflexivity|].
      apply Nat.ltb_ge in Hlen.
      assert (Hne : dict_values scores <> []).
      { unfold dict_values. destruct scores; simpl in *; [lia | discriminate]. }
      destruct (py_max_spec _ Hne) as [Hin _].
      rewrite Forall_forall in Hall. specialize (Hall _ Hin).
      replace (Qltb 15 (py_max (dict_values scores))) with false
        by (symmetry; apply Qltb_false; exact Hall).
      reflexivity.
Qed.

Lemma normalize_scores_never_increase_witness :
  (exists y, dict_lookup "b"%string (normalize_scores_zscore outlier_scores) = Some y /\
             y <= 20 /\ (20 <= 10 -> y = 20)) /\
  normalize_scores_zscore two_scores = two_scores.
Proof.
  split.
  - apply (proj1 (normalize_scores_never_increase outlier_scores) "b"%string 20). reflexivity.
  - apply (proj2 (normalize_scores_never_increase two_scores)).
    right. repeat constructor; vm_compute; discriminate.
Defined.

(* ------------------------------------------------------------------ *)
(** ** BenchmarkResult *)

(** C8: iterating a [BenchmarkResult] yields exactly its score then its
    details, whatever its other fields; without a confidence interval the
    constructor stores [(score, score)]. *)
Theorem BenchmarkResult_unpacks_as_pair :
  (forall r : BenchmarkResult,
     BenchmarkResult_iter r = [IFloat r.(score); IDetails r.(details)]) /\
  (forall s d raw_metrics ci,
     BenchmarkResult_iter (make_BenchmarkResult s d raw_metrics ci) = [IFloat s; IDetails d]) /\
  (forall s d raw_metrics,
     (make_BenchmarkResult s d raw_metrics None).(confidence_interval) = (s, s)).
Proof.
  split; [intro r; reflexivity|].
  split; intros; reflexivity.
Qed.

(* ------------------------------------------------------------------ *)
(** ** BUILT_IN_MODULES *)

(** C7 (as stated fails): neither the module list nor the mapping the
    orchestrator iterates has twelve members. *)
Lemma BUILT_IN_MODULES_not_twelve :
  length BUILT_IN_MODULES <> 12%nat /\ length BENCHMARK_FUNCS <> 12%nat.
Proof.
  split; vm_compute; discriminate.
Qed.

(** C7 (amended): [BUILT_IN_MODULES] lists ten distinct modules, and
    [_load_benchmarks] maps ten distinct display names, which the
    orchestrator iterates. *)
Theorem BUILT_IN_MODULES_ten :
  length BUILT_IN_MODULES = 10%nat /\ NoDup BUILT_IN_MODULES /\
  map fst BENCHMARK_FUNCS =
    ["Readability"; "Maintainability"; "Performance"; "Testability";
     "Robustness"; "Security"; "Scalability"; "Documentation";
     "Consistency"; "GitHealth"]%string /\
  NoDup (map fst BENCHMARK_FUNCS).
Proof.
  assert (Hk : map fst BENCHMARK_FUNCS =
    ["Readability"; "Maintainability"; "Performance"; "Testability";
     "Robustness"; "Security"; "Scalability"; "Documentation";
     "Consistency"; "GitHealth"]%string) by (vm_compute; reflexivity).
  split; [reflexivity|]. split.
  { unfold BUILT_IN_MODULES. repeat constructor; simpl; intuition discriminate. }
  split; [exact Hk|]. rewrite Hk.
  repeat constructor; simpl; intuition discriminate.
Qed.

(* ------------------------------------------------------------------ *)
(** ** compare: weighting *)

Lemma dict_lookup_app {V} k (d e : dict V) :
  dict_lookup k (d ++ e) =
    match dict_lookup k d with Some v => Some v | None => dict_lookup k e end.
Proof.
  induction d as [|[k' v'] d IH]; simpl; [reflexivity|].
  destruct (String.eqb k k'); [reflexivity | exact IH].
Qed.

Lemma dict_setitem_fresh {V} k (v : V) d :
  dict_lookup k d = None -> dict_setitem k v d = d ++ [(k, v)].
Proof.
  induction d as [|[k' v'] d IH]; simpl; [reflexivity|].
  destruct (String.eqb k k') eqn:E; [discriminate|].
  intro H. f_equal. exact (IH H).
Qed.

Lemma compare_collect_fold runs a b :
  NoDup (map run_name runs) ->
  (forall r, In r runs -> dict_lookup (run_name r) a = None /\
                          dict_lookup (run_name r) b = None) ->
  fold_left (fun '(raw1, raw2) '(name, result1, result2) =>
               (dict_setitem name (unpack_score result1) raw1,
                dict_setitem name (unpack_score result2) raw2))
            runs (a, b)
  = (a ++ raw_of_runs1 runs, b ++ raw_of_runs2 runs).
Proof.
  revert a b. induction runs as [|[[name o1] o2] rest IH]; intros a b Hnd Hfresh.
  - simpl. rewrite !app_nil_r. reflexivity.
  - simpl in Hnd. inversion Hnd as [|? ? Hnotin Hnd']. subst.
    destruct (Hfresh (name, o1, o2) (or_introl eq_refl)) as [Ha Hb]. simpl in Ha, Hb.
    simpl. rewrite (dict_setitem_fresh _ _ _ Ha), (dict_setitem_fresh _ _ _ Hb).
    rewrite IH; [rewrite <- !app_assoc; reflexivity | exact Hnd' |].
    intros r Hr. destruct (Hfresh r (or_intror Hr)) as [Har Hbr].
    assert (Hne : String.eqb (run_name r) name = false).
    { apply String.eqb_neq. intro Heq. apply Hnotin. rewrite <- Heq.
      apply in_map. exact Hr. }
    rewrite !dict_lookup_app, Har, Hbr. simpl. rewrite Hne. split; reflexivity.
Qed.

Lemma compare_collect_nodup runs :
  NoDup (map run_name runs) -> compare_collect runs = (raw_of_runs1 runs, raw_of_runs2 runs).
Proof.
  intro Hnd. unfold compare_collect.
  rewrite compare_collect_fold; [reflexivity | exact Hnd |].
  intros; split; reflexivity.
Qed.

Lemma raw_of_runs_lookup runs name o1 o2 :
  NoDup (map run_name runs) -> In (name, o1, o2) runs ->
  dict_lookup name (raw_of_runs1 runs) = Some (unpack_score o1) /\
  dict_lookup name (raw_of_runs2 runs) = Some (unpack_score o2).
Proof.
  induction runs as [|[[n p1] p2] rest IH]; intros Hnd Hin; [destruct Hin|].
  simpl in Hnd. inversion Hnd as [|? ? Hnotin Hnd']. subst.
  simpl. destruct Hin as [Heq | Hin].
  - injection Heq as -> -> ->. rewrite String.eqb_refl. split; reflexivity.
  - assert (Hne : String.eqb name n = false).
    { apply String.eqb_neq. intro Heq. subst. apply Hnotin.
      change n with (run_name (n, o1, o2)). apply in_map. exact Hin. }
    rewrite Hne. apply IH; assumption.
Qed.

Lemma compare_totals_sum names w n1 n2 t1 t2 :
  fst (fold_left (fun '(total_score1, total_score2) name =>
               let weight := dict_get name w 1 in
               let weighted_score1 := dict_get name n1 0 * weight in
               let weighted_score2 := dict_get name n2 0 * weight in
               (total_score1 + weighted_score1, total_score2 + weighted_score2))
            names (t1, t2))
    == t1 + qsum (map (fun name => dict_get name n1 0 * dict_get name w 1) names) /\
  snd (fold_left (fun '(total_score1, total_score2) name =>
               let weight := dict_get name w 1 in
               let weighted_score1 := dict_get name n1 0 * weight in
               let weighted_score2 := dict_get name n2 0 * weight in
               (total_score1 + weighted_score1, total_score2 + weighted_score2))
            names (t1, t2))
    == t2 + qsum (map (fun name => dict_get name n2 0 * dict_get name w 1) names).
Proof.
  revert t1 t2. induction names as [|name rest IH]; intros t1 t2; simpl.
  - split; ring.
  - destruct (IH (t1 + dict_get name n1 0 * dict_get name w 1)
                 (t2 + dict_get name n2 0 * dict_get name w 1)) as [H1 H2].
    split; [rewrite H1 | rewrite H2]; ring.
Qed.

Lemma qsum_map_ext_in {A} (f g : A -> Q) l :
  (forall x, In x l -> f x == g x) -> qsum (map f l) == qsum (map g l).
Proof.
  induction l as [|x l IH]; intro H; simpl; [reflexivity|].
  rewrite (H x (or_introl eq_refl)), IH; [reflexivity|].
  intros y Hy. apply H. right. exact Hy.
Qed.

(** C4: each codebase's total is the sum, over the benchmarks run, of the
    benchmark's normalized score times its user-supplied weight (1.0 when
    the weights do not name it). The benchmark names are distinct, as they
    come from the keys of [BENCHMARK_FUNCS]. *)
Theorem compare_total_is_weighted_sum
    (runs : list (string * bench_output * bench_output)) (benchmark_weights : dict Q) :
  NoDup (map run_name runs) ->
  total_score1 (compare_scores runs benchmark_weights)
    == qsum (map (fun '(name, result1, _) =>
                    light_scale (raw_of_runs1 runs) (unpack_score result1)
                    * weight_of benchmark_weights name) runs) /\
  total_score2 (compare_scores runs benchmark_weights)
    == qsum (map (fun '(name, _, result2) =>
                    light_scale (raw_of_runs2 runs) (unpack_score result2)
                    * weight_of benchmark_weights name) runs).
Proof.
  intro Hnd. unfold compare_scores, compare_totals.
  rewrite (compare_collect_nodup runs Hnd).
  destruct (compare_totals_sum (map run_name runs) benchmark_weights
              (normalize_scores_zscore (raw_of_runs1 runs))
              (normalize_scores_zscore (raw_of_runs2 runs)) 0 0) as [H1 H2].
  destruct (fold_left _ (map run_name runs) (0, 0)) as [t1 t2] eqn:Ht.
  simpl in H1, H2 |- *. rewrite map_map in H1, H2.
  split; [rewrite H1 | rewrite H2]; rewrite Qplus_0_l;
    apply qsum_map_ext_in; intros [[name o1] o2] Hin;
    destruct (raw_of_runs_lookup runs name o1 o2 Hnd Hin) as [L1 L2];
    unfold dict_get, weight_of; simpl.
  - rewrite (normalize_lookup _ _ _ L1). reflexivity.
  - rewrite (normalize_lookup _ _ _ L2). reflexivity.
Qed.

Lemma compare_total_is_weighted_sum_witness :
  NoDup (map run_name sample_runs) /\
  total_score1 (compare_scores sample_runs [("Security", 2)]%string)
    == qsum (map (fun '(name, result1, _) =>
                    light_scale (raw_of_runs1 sample_runs) (unpack_score result1)
                    * weight_of [("Security", 2)]%string name) sample_runs).
Proof.
  assert (Hnd : NoDup (map run_name sample_runs)).
  { simpl. repeat constructor; simpl; intuition discriminate. }
  split; [exact Hnd|].
  exact (proj1 (compare_total_is_weighted_sum sample_runs [("Security", 2)]%string Hnd)).
Defined.

(* ------------------------------------------------------------------ *)
(** ** get_codebase_size_bucket *)

Lemma count_non_empty_fold lines a :
  fold_left (fun acc line => if strip_nonempty line then S acc else acc) lines a
  = (a + length (filter strip_nonempty lines))%nat.
Proof.
  revert a. induction lines as [|l rest IH]; intro a; simpl; [lia|].
  destruct (strip_nonempty l); rewrite IH; simpl; lia.
Qed.

Lemma _count_non_empty_lines_spec text :
  _count_non_empty_lines text = non_blank_lines text.
Proof.
  unfold _count_non_empty_lines, non_blank_lines. rewrite count_non_empty_fold. lia.
Qed.

Lemma size_total_fold cb files a :
  fold_left (fun total_loc file_path =>
               match cb.(read_file) file_path with
               | ROk text => (total_loc + _count_non_empty_lines text)%nat
               | _ => total_loc
               end) files a
  = (a + list_sum (map (fun p => match cb.(read_file) p with
                                 | ROk text => non_blank_lines text
                                 | _ => 0%nat
                                 end) files))%nat.
Proof.
  revert a. induction files as [|p rest IH]; intro a; simpl; [lia|].
  rewrite IH. destruct (read_file cb p); try rewrite _count_non_empty_lines_spec; lia.
Qed.

(** C3: the bucket is ["small"] exactly below 100 non-blank lines (over the
    files that can be read and decoded), ["medium"] exactly from 100 to 999,
    and ["large"] otherwise. *)
Theorem get_codebase_size_bucket_spec (cb : codebase) :
  let n := readable_non_blank_total cb in
  (get_codebase_size_bucket cb = "small"%string <-> (n < 100)%nat) /\
  (get_codebase_size_bucket cb = "medium"%string <-> (100 <= n < 1000)%nat) /\
  (get_codebase_size_bucket cb = "large"%string <-> (1000 <= n)%nat) /\
  In (get_codebase_size_bucket cb) ["small"; "medium"; "large"]%string.
Proof.
  intro n. unfold get_codebase_size_bucket.
  rewrite size_total_fold. simpl Nat.add.
  change (list_sum _) with (readable_non_blank_total cb). fold n.
  destruct (Nat.ltb n 100) eqn:E1; [apply Nat.ltb_lt in E1 | apply Nat.ltb_ge in E1].
  - repeat split; try lia; try discriminate; simpl; auto.
  - destruct (Nat.ltb n 1000) eqn:E2; [apply Nat.ltb_lt in E2 | apply Nat.ltb_ge in E2];
      repeat split; try lia; try discriminate; simpl; auto.
Qed.

(* ------------------------------------------------------------------ *)
(** ** Codebases without Python files *)

(** C10: with no [.py] file, the three scorers return
    [(0.0, ["No Python files found."])] and [assess_performance] a result with
    score 0.0 and those details, whatever the file contents and the
    libraries' behaviour (none of them is consulted). *)
Theorem no_python_files_early_exit
    (complexity_visitor : string -> radon_result) (pep8_total_errors : list string -> nat)
    (ast_parse : string -> ast_result)
    (analysis : codebase -> list string -> py_result BenchmarkResult) (cb : codebase) :
  python_files cb = [] ->
  assess_readability complexity_visitor pep8_total_errors cb = Ok (0, [NO_PYTHON_FILES]) /\
  assess_documentation ast_parse cb = Ok (0, [NO_PYTHON_FILES]) /\
  assess_robustness ast_parse cb = Ok (0, [NO_PYTHON_FILES]) /\
  exists r, assess_performance analysis cb = Ok r /\
            r.(score) = 0 /\ r.(details) = [NO_PYTHON_FILES].
Proof.
  intro H.
  unfold assess_readability, assess_documentation, assess_robustness,
         assess_performance, get_python_files.
  rewrite H. split; [reflexivity|]. split; [reflexivity|]. split; [reflexivity|].
  eexists. split; [reflexivity | split; reflexivity].
Qed.

Lemma no_python_files_early_exit_witness :
  python_files empty_codebase = [] /\
  assess_readability (fun _ => RadonSyntaxError) (fun _ => 3%nat) empty_codebase
    = Ok (0, [NO_PYTHON_FILES]) /\
  assess_documentation (fun _ => AstSyntaxError) empty_codebase = Ok (0, [NO_PYTHON_FILES]) /\
  assess_robustness (fun _ => AstSyntaxError) empty_codebase = Ok (0, [NO_PYTHON_FILES]) /\
  exists r, assess_performance (fun _ _ => Raise "RuntimeError"%string) empty_codebase = Ok r /\
            r.(score) = 0 /\ r.(details) = [NO_PYTHON_FILES].
Proof.
  split; [reflexivity|].
  apply (no_python_files_early_exit (fun _ => RadonSyntaxError) (fun _ => 3%nat)
           (fun _ => AstSyntaxError) (fun _ _ => Raise "RuntimeError"%string) empty_codebase).
  reflexivity.
Defined.

(* ------------------------------------------------------------------ *)
(** ** Scores lie in [[0, 10]] *)

(** C2: whenever [assess_readability], [assess_documentation] or
    [assess_robustness] returns a score, it lies in [[0.0, 10.0]]. *)
Theorem scores_within_0_10
    (complexity_visitor : string -> radon_result) (pep8_total_errors : list string -> nat)
    (ast_parse : string -> ast_result) (cb : codebase) :
  (forall s d, assess_readability complexity_visitor pep8_total_errors cb = Ok (s, d) ->
     0 <= s /\ s <= 10) /\
  (forall s d, assess_documentation ast_parse cb = Ok (s, d) -> 0 <= s /\ s <= 10) /\
  (forall s d, assess_robustness ast_parse cb = Ok (s, d) -> 0 <= s /\ s <= 10).
Proof.
  split; [|split]; intros s d.
  - unfold assess_readability.
    destruct (get_python_files cb) as [|p ps].
    { intro H. injection H as <- _. split; lra. }
    unfold py_bind.
    destruct (py_for _ _ _) as [[[details tc] tf] | e]; [|discriminate].
    intro H. injection H as <- _. apply py_clamp_bounds.
  - unfold assess_documentation.
    destruct (get_python_files cb) as [|p ps].
    { intro H. injection H as <- _. split; lra. }
    unfold py_bind.
    destruct (py_for _ _ _) as [[[[tot docd] good] details] | e]; [|discriminate].
    destruct (Nat.eqb tot 0).
    { intro H. injection H as <- _. split; lra. }
    intro H. injection H as <- _. apply py_clamp_bounds.
  - unfold assess_robustness.
    destruct (get_python_files cb) as [|p ps].
    { intro H. injection H as <- _. split; lra. }
    destruct (fold_left _ _ _) as [[[th gh] ul] details].
    destruct (Nat.eqb th 0).
    { intro H. injection H as <- _. destruct ul; split; lra. }
    intro H. injection H as <- _. apply py_clamp_bounds.
Qed.

Lemma scores_within_0_10_witness :
  (exists s d, assess_readability (fun _ => RadonOk []) (fun _ => 4%nat) sample_codebase
                 = Ok (s, d) /\ 0 <= s /\ s <= 10) /\
  (exists s d, assess_documentation (fun _ => AstOk sample_tree) sample_codebase
                 = Ok (s, d) /\ 0 <= s /\ s <= 10) /\
  (exists s d, assess_robustness (fun _ => AstOk sample_tree) sample_codebase
                 = Ok (s, d) /\ 0 <= s /\ s <= 10).
Proof.
  split; [|split]; do 2 eexists; (split; [vm_compute; reflexivity|]).
  - eapply (proj1 (scores_within_0_10 (fun _ => RadonOk []) (fun _ => 4%nat)
                    (fun _ => AstOk sample_tree) sample_codebase)).
    vm_compute. reflexivity.
  - eapply (proj1 (proj2 (scores_within_0_10 (fun _ => RadonOk []) (fun _ => 4%nat)
                    (fun _ => AstOk sample_tree) sample_codebase))).
    vm_compute. reflexivity.
  - eapply (proj2 (proj2 (scores_within_0_10 (fun _ => RadonOk []) (fun _ => 4%nat)
                    (fun _ => AstOk sample_tree) sample_codebase))).
    vm_compute. reflexivity.
Defined.

(* ------------------------------------------------------------------ *)
(** ** assess_robustness: the handler-specificity formula *)

Lemma clamp10_compat x y : x == y -> clamp10 x == clamp10 y.
Proof. intro H. unfold clamp10. rewrite H. reflexivity. Qed.

Lemma analyze_node_spec p ul th gh fd n :
  exists fd',
    _analyze_node p (ul, th, gh, fd) n =
    (ul || match n.(kind) with
           | KImport names => existsb (String.eqb "logging") names
           | KImportFrom (Some m) => String.eqb m "logging"
           | _ => false
           end,
     (th + length (match n.(kind) with KExceptHandler ty => [ty] | _ => [] end))%nat,
     (gh + length (filter specific_handler
                     (match n.(kind) with KExceptHandler ty => [ty] | _ => [] end)))%nat,
     fd').
Proof.
  destruct n as [k name ln ds]. unfold _analyze_node. simpl.
  destruct k as [| | | |names|[m|]|[[id|]|]|]; simpl;
    try match goal with |- context [String.eqb ?x "Exception"] =>
          destruct (String.eqb x "Exception") end; simpl;
    repeat match goal with |- context [if ?b then _ else _] => destruct b end;
    simpl; eexists; repeat f_equal; try (destruct ul; reflexivity); lia.
Qed.

Lemma analyze_file_ast_spec t p :
  exists fd, _analyze_file_ast t p =
    (imports_logging t, length (file_handlers t),
     length (filter specific_handler (file_handlers t)), fd).
Proof.
  unfold _analyze_file_ast, imports_logging, file_handlers.
  assert (Hgen : forall nodes ul th gh fd, exists fd',
    fold_left (_analyze_node p) nodes (ul, th, gh, fd) =
    (ul || existsb (fun n => match n.(kind) with
                             | KImport names => existsb (String.eqb "logging") names
                             | KImportFrom (Some m) => String.eqb m "logging"
                             | _ => false
                             end) nodes,
     (th + length (flat_map (fun n => match n.(kind) with
                                      | KExceptHandler ty => [ty] | _ => [] end) nodes))%nat,
     (gh + length (filter specific_handler
                     (flat_map (fun n => match n.(kind) with
                                         | KExceptHandler ty => [ty] | _ => [] end) nodes)))%nat,
     fd')).
  { induction nodes as [|n rest IH]; intros ul th gh fd; cbn [fold_left existsb flat_map].
    - exists fd. rewrite orb_false_r, !Nat.add_0_r. reflexivity.
    - destruct (analyze_node_spec p ul th gh fd n) as [fd1 Hn]. rewrite Hn.
      match goal with |- exists _, fold_left _ rest (?a, ?b, ?c, _) = _ =>
        destruct (IH a b c fd1) as [fd2 Hr] end.
      rewrite Hr. exists fd2.
      rewrite filter_app, !length_app, orb_assoc, !Nat.add_assoc. reflexivity. }
  destruct (Hgen (walk t) false 0%nat 0%nat []) as [fd H]. exists fd. exact H.
Qed.

Lemma rob_fold_spec ast_parse cb files th gh ul d :
  let trees := flat_map (fun p => match parse_file ast_parse cb p with
                                  | Ok (Some t) => [t]
                                  | _ => []
                                  end) files in
  exists d',
    fold_left (rob_step ast_parse cb) files (th, gh, ul, d) =
    ((th + length (flat_map file_handlers trees))%nat,
     (gh + length (filter specific_handler (flat_map file_handlers trees)))%nat,
     ul || existsb imports_logging trees, d').
Proof.
  revert th gh ul d. induction files as [|p rest IH]; intros th gh ul d; simpl.
  - exists d. rewrite orb_false_r, !Nat.add_0_r. reflexivity.
  - destruct (parse_file ast_parse cb p) as [[t|]|e] eqn:E; simpl.
    + destruct (analyze_file_ast_spec t p) as [fd Ht]. rewrite Ht.
      match goal with |- exists _, fold_left _ rest (?a, ?b, ?c, ?e) = _ =>
        destruct (IH a b c e) as [d' Hr] end.
      rewrite Hr. exists d'.
      rewrite filter_app, !length_app, !Nat.add_assoc.
      f_equal. destruct (imports_logging t), ul; reflexivity.
    + apply IH.
    + apply IH.
Qed.

(** C5: for a codebase with at least one Python file, [assess_robustness]
    scores 5.0 or 2.0 (logging imported or not) when no handler is found,
    and otherwise [clamp (specific / total * 8.0 + (2.0 if logging))], over
    the handlers of the files that parse. *)
Theorem assess_robustness_handler_score (ast_parse : string -> ast_result) (cb : codebase) :
  python_files cb <> [] ->
  exists s d, assess_robustness ast_parse cb = Ok (s, d) /\
              s == robustness_score_spec (parsed_trees ast_parse cb).
Proof.
  intro Hne. unfold assess_robustness, robustness_score_spec, parsed_trees, get_python_files.
  destruct (python_files cb) as [|p ps] eqn:Hf; [contradiction|].
  destruct (rob_fold_spec ast_parse cb (p :: ps) 0 0 false []) as [d' Hfold].
  rewrite Hfold, orb_false_l, !Nat.add_0_l.
  set (trees := flat_map _ (p :: ps)).
  destruct (length (flat_map file_handlers trees)) as [|n] eqn:Hl; simpl.
  - do 2 eexists. split; [reflexivity | apply Qeq_refl].
  - do 2 eexists. split; [reflexivity|].
    rewrite py_clamp_eq. apply clamp10_compat.
    destruct (existsb imports_logging trees); ring.
Qed.

Lemma assess_robustness_handler_score_witness :
  python_files sample_codebase <> [] /\
  exists s d, assess_robustness (fun _ => AstOk sample_tree) sample_codebase = Ok (s, d) /\
              s == robustness_score_spec (parsed_trees (fun _ => AstOk sample_tree) sample_codebase).
Proof.
  assert (H : python_files sample_codebase <> []) by discriminate.
  split; [exact H|].
  exact (assess_robustness_handler_score (fun _ => AstOk sample_tree) sample_codebase H).
Defined.

(* ------------------------------------------------------------------ *)
(** ** assess_documentation: coverage and quality *)

Lemma present_docstrings_cons ds l :
  present_docstrings (ds :: l) = present_docstrings [ds] ++ present_docstrings l.
Proof. simpl. rewrite app_nil_r. reflexivity. Qed.

Lemma present_docstrings_app l1 l2 :
  present_docstrings (l1 ++ l2) = present_docstrings l1 ++ present_docstrings l2.
Proof. unfold present_docstrings. apply flat_map_app. Qed.

Lemma doc_count_spec tot docd good det ds missing :
  exists det', doc_count (tot, docd, good, det) ds missing =
    (S tot, (docd + length (present_docstrings [ds]))%nat,
     (good + length (filter _good_docstring (present_docstrings [ds])))%nat, det').
Proof.
  unfold doc_count, present_docstrings. simpl.
  destruct (doc_truthy ds) as [d|]; simpl.
  - destruct (_good_docstring d); simpl; eexists; tuple_eq.
  - eexists. tuple_eq.
Qed.

Lemma doc_file_spec p t tot docd good det :
  exists det', doc_file p t (tot, docd, good, det) =
    ((tot + length (file_entities t))%nat,
     (docd + length (present_docstrings (file_entities t)))%nat,
     (good + length (filter _good_docstring (present_docstrings (file_entities t))))%nat,
     det').
Proof.
  unfold doc_file, file_entities.
  destruct (doc_count_spec tot docd good det (module_docstring t) (MMissingModuleDoc p))
    as [det1 H1].
  rewrite H1. clear H1.
  assert (Hgen : forall nodes tot docd good det, exists det',
    fold_left (fun st node =>
                 if is_documentable node.(kind)
                 then doc_count st node.(node_docstring)
                        (MMissingDoc node.(node_name) p node.(lineno))
                 else st) nodes (tot, docd, good, det) =
    let E := map node_docstring (filter (fun n => is_documentable n.(kind)) nodes) in
    ((tot + length E)%nat, (docd + length (present_docstrings E))%nat,
     (good + length (filter _good_docstring (present_docstrings E)))%nat, det')).
  { induction nodes as [|n rest IH]; intros tot' docd' good' det'; cbn [fold_left filter].
    - exists det'. simpl. tuple_eq.
    - destruct (is_documentable (kind n)).
      + destruct (doc_count_spec tot' docd' good' det' (node_docstring n)
                    (MMissingDoc (node_name n) p (lineno n))) as [det3 H1].
        rewrite H1.
        destruct (IH (S tot') (docd' + length (present_docstrings [node_docstring n]))%nat
                    (good' + length (filter _good_docstring
                                       (present_docstrings [node_docstring n])))%nat det3)
          as [det4 H2].
        rewrite H2. exists det4. cbn [map length].
        rewrite (present_docstrings_cons (node_docstring n)
                   (map node_docstring (filter (fun n => is_documentable (kind n)) rest))).
        rewrite filter_app, !length_app.
        tuple_eq.
      + apply IH. }
  destruct (Hgen (walk t) (S tot)
              (docd + length (present_docstrings [module_docstring t]))%nat
              (good + length (filter _good_docstring
                                 (present_docstrings [module_docstring t])))%nat det1)
    as [det2 H2].
  rewrite H2. exists det2. cbn [length].
  rewrite (present_docstrings_cons (module_docstring t)
             (map node_docstring (filter (fun n => is_documentable (kind n)) (walk t)))).
  rewrite filter_app, !length_app.
  tuple_eq.
Qed.

Lemma doc_loop_spec ast_parse cb files tot docd good det :
  let trees := flat_map (fun p => match parse_file ast_parse cb p with
                                  | Ok (Some t) => [t]
                                  | _ => []
                                  end) files in
  let E := flat_map file_entities trees in
  match py_for files (tot, docd, good, det) (doc_step ast_parse cb) with
  | Ok (tot', docd', good', _) =>
      tot' = (tot + length E)%nat /\
      docd' = (docd + length (present_docstrings E))%nat /\
      good' = (good + length (filter _good_docstring (present_docstrings E)))%nat
  | Raise _ => exists p e, In p files /\ parse_file ast_parse cb p = Raise e
  end.
Proof.
  revert tot docd good det.
  induction files as [|p rest IH]; intros tot docd good det; cbn [py_for flat_map].
  - simpl. lia.
  - destruct (parse_file ast_parse cb p) as [[t|]|e] eqn:Hp.
    + assert (Hs : doc_step ast_parse cb (tot, docd, good, det) p
                   = Ok (doc_file p t (tot, docd, good, det)))
        by (unfold doc_step; rewrite Hp; reflexivity).
      rewrite Hs. cbn [py_bind].
      destruct (doc_file_spec p t tot docd good det) as [det1 Hf]. rewrite Hf.
      match goal with |- context [py_for rest (?a, ?b, ?c, ?d) _] =>
        specialize (IH a b c d) end.
      cbv zeta in IH |- *.
      destruct (py_for rest _ _) as [[[[tot' docd'] good'] det'] | e].
      * destruct IH as (H1 & H2 & H3).
        rewrite !flat_map_app. cbn [flat_map]. rewrite app_nil_r.
        rewrite present_docstrings_app, filter_app, !length_app.
        rewrite H1, H2, H3. lia.
      * destruct IH as (q & e' & Hin & Hq). exists q, e'. split; [right; exact Hin | exact Hq].
    + assert (Hs : doc_step ast_parse cb (tot, docd, good, det) p = Ok (tot, docd, good, det))
        by (unfold doc_step; rewrite Hp; reflexivity).
      rewrite Hs. cbn [py_bind app].
      specialize (IH tot docd good det). cbv zeta in IH |- *.
      destruct (py_for rest _ _) as [[[[tot' docd'] good'] det'] | e]; [exact IH|].
      destruct IH as (q & e' & Hin & Hq). exists q, e'. split; [right; exact Hin | exact Hq].
    + assert (Hs : doc_step ast_parse cb (tot, docd, good, det) p = Raise e)
        by (unfold doc_step; rewrite Hp; reflexivity).
      rewrite Hs. cbn [py_bind].
      exists p, e. split; [left; reflexivity | exact Hp].
Qed.

Lemma file_entities_nonempty trees :
  trees <> [] -> length (flat_map file_entities trees) <> 0%nat.
Proof.
  destruct trees as [|t ts]; [congruence|]. intros _.
  simpl. rewrite length_app. unfold file_entities. simpl. lia.
Qed.

(** C6: when at least one Python file parses, [assess_documentation] returns
    (unless [parse_file] raises on some file) the clamped average of the
    coverage component (percentage of documentable entities with a
    docstring, divided by 10) and the quality component (fraction of those
    docstrings accepted by [_good_docstring], times 10). *)
Theorem assess_documentation_average (ast_parse : string -> ast_result) (cb : codebase) :
  parsed_trees ast_parse cb <> [] ->
  match assess_documentation ast_parse cb with
  | Ok (s, _) => s == documentation_score_spec (flat_map file_entities (parsed_trees ast_parse cb))
  | Raise _ => exists p e, In p (python_files cb) /\ parse_file ast_parse cb p = Raise e
  end.
Proof.
  intro Hne.
  pose proof (doc_loop_spec ast_parse cb (python_files cb) 0 0 0 []) as L.
  cbv zeta in L.
  pose proof (file_entities_nonempty _ Hne) as Hlen.
  unfold parsed_trees in Hne, Hlen |- *.
  unfold assess_documentation, get_python_files.
  destruct (python_files cb) as [|p ps] eqn:Hf; [simpl in Hne; contradiction|].
  unfold py_bind.
  destruct (py_for (p :: ps) _ _) as [[[[tot docd] good] det] | e]; [|exact L].
  destruct L as (H1 & H2 & H3).
  set (E := flat_map file_entities _) in *.
  rewrite Nat.add_0_l in H1, H2, H3. subst tot docd good.
  replace (Nat.eqb (length E) 0) with false by (symmetry; apply Nat.eqb_neq; exact Hlen).
  rewrite py_clamp_eq. unfold documentation_score_spec. apply clamp10_compat.
  destruct (present_docstrings E) as [|x xs]; simpl Nat.eqb; unfold Qdiv; ring.
Qed.

Lemma assess_documentation_average_witness :
  parsed_trees (fun _ => AstOk sample_tree) sample_codebase <> [] /\
  match assess_documentation (fun _ => AstOk sample_tree) sample_codebase with
  | Ok (s, _) => s == documentation_score_spec
                        (flat_map file_entities
                           (parsed_trees (fun _ => AstOk sample_tree) sample_codebase))
  | Raise _ => exists p e, In p (python_files sample_codebase) /\
                           parse_file (fun _ => AstOk sample_tree) sample_codebase p = Raise e
  end.
Proof.
  assert (H : parsed_trees (fun _ => AstOk sample_tree) sample_codebase <> [])
    by (vm_compute; discriminate).
  split; [exact H|].
  exact (assess_documentation_average (fun _ => AstOk sample_tree) sample_codebase H).
Defined.

(* ------------------------------------------------------------------ *)
(** * Further properties of the code *)

(** ** Helper lemmas *)

Lemma _clamp_max_Qmin v m : _clamp_max v m == Qmin v m.
Proof.
  unfold _clamp_max. destruct (Qle_bool v m) eqn:E.
  - apply Qle_bool_iff in E. rewrite Q.min_l; [reflexivity | exact E].
  - rewrite Q.min_r; [reflexivity|]. apply Qlt_le_weak, Qnot_le_lt.
    intro H. apply Qle_bool_iff in H. congruence.
Qed.

Lemma adjust_score_for_size_mult raw bucket metric_type :
  exists mult, 0.9 <= mult /\ mult <= 1.5 /\
    adjust_score_for_size raw bucket metric_type = _clamp_max (raw * mult) 10 /\
    (bucket = "small"%string -> 1 <= mult) /\
    (bucket = "large"%string -> mult <= 1) /\
    (~ In bucket ["small"; "large"]%string -> mult == 1).
Proof.
  unfold adjust_score_for_size, dict_get. simpl.
  repeat match goal with
         | |- context [String.eqb metric_type ?s] => destruct (String.eqb metric_type s)
         end; simpl;
  repeat match goal with
         | |- context [String.eqb bucket ?s] => destruct (String.eqb bucket s) eqn:?
         end;
  (eexists; split; [|split; [|split; [reflexivity|]]]);
  repeat match goal with
         | H : String.eqb _ _ = true |- _ => apply String.eqb_eq in H
         | H : String.eqb _ _ = false |- _ => apply String.eqb_neq in H
         end; subst;
  repeat split; intros; subst; simpl in *; try congruence; try tauto;
  unfold Qle, Qeq; simpl; lia.
Qed.

Lemma adjust_score_for_size_le_10 raw bucket metric_type :
  adjust_score_for_size raw bucket metric_type <= 10.
Proof.
  destruct (adjust_score_for_size_mult raw bucket metric_type) as (m & _ & _ & -> & _).
  rewrite _clamp_max_Qmin. apply Q.le_min_r.
Qed.

Lemma dict_lookup_setitem {V} k k' (v : V) d :
  dict_lookup k (dict_setitem k' v d) = if String.eqb k k' then Some v else dict_lookup k d.
Proof.
  induction d as [|[k'' v''] d IH]; simpl.
  - destruct (String.eqb k k'); reflexivity.
  - destruct (String.eqb k' k'') eqn:E; simpl.
    + apply String.eqb_eq in E. subst. destruct (String.eqb k k''); reflexivity.
    + destruct (String.eqb k k'') eqn:E2; [|exact IH].
      apply String.eqb_eq in E2. subst. rewrite String.eqb_sym, E. reflexivity.
Qed.

Lemma dict_setitem_cons {V} k (v : V) d : exists x l, dict_setitem k v d = x :: l.
Proof.
  destruct d as [|[k' v'] d]; simpl; [eauto|].
  destruct (String.eqb k k'); eauto.
Qed.

Lemma light_scale_monotone scores x y :
  (x <= y -> light_scale scores x <= light_scale scores y) /\
  (x < y -> light_scale scores x < light_scale scores y).
Proof.
  unfold light_scale.
  destruct (Nat.leb 2 (length scores) && existsb (Qltb 15) (dict_values scores)); simpl;
    [|split; intro; assumption].
  destruct (Qltb 10 x) eqn:Ex, (Qltb 10 y) eqn:Ey;
    first [apply Qltb_true in Ex | apply Qltb_false in Ex];
    first [apply Qltb_true in Ey | apply Qltb_false in Ey];
    split; intro; lra.
Qed.

Lemma pick_winner_flip a b : pick_winner b a = flip_winner (pick_winner a b).
Proof.
  unfold pick_winner.
  destruct (Qltb b a) eqn:E1, (Qltb a b) eqn:E2; try reflexivity.
  apply Qltb_true in E1. apply Qltb_true in E2. lra.
Qed.

Lemma compare_scores_swap runs w :
  compare_scores (map swap_run runs) w =
  let r := compare_scores runs w in
  {| raw_scores1 := r.(raw_scores2); raw_scores2 := r.(raw_scores1);
     normalized_scores1 := r.(normalized_scores2); normalized_scores2 := r.(normalized_scores1);
     total_score1 := r.(total_score2); total_score2 := r.(total_score1) |}.
Proof.
  assert (Hc : forall rs (a b : list (string * Q)),
    fold_left (fun '(raw1, raw2) '(name, result1, result2) =>
                 (dict_setitem name (unpack_score result1) raw1,
                  dict_setitem name (unpack_score result2) raw2))
              (map swap_run rs) (b, a) =
    let '(x, y) := fold_left (fun '(raw1, raw2) '(name, result1, result2) =>
                                (dict_setitem name (unpack_score result1) raw1,
                                 dict_setitem name (unpack_score result2) raw2))
                             rs (a, b) in (y, x)).
  { induction rs as [|[[n o1] o2] rs IH]; intros a b; simpl; [reflexivity|]. apply IH. }
  assert (Ht : forall names n1 n2 t1 t2,
    fold_left (fun '(total_score1, total_score2) name =>
                 let weight := dict_get name w 1 in
                 let weighted_score1 := dict_get name n2 0 * weight in
                 let weighted_score2 := dict_get name n1 0 * weight in
                 (total_score1 + weighted_score1, total_score2 + weighted_score2))
              names (t2, t1) =
    let '(x, y) := fold_left (fun '(total_score1, total_score2) name =>
                 let weight := dict_get name w 1 in
                 let weighted_score1 := dict_get name n1 0 * weight in
                 let weighted_score2 := dict_get name n2 0 * weight in
                 (total_score1 + weighted_score1, total_score2 + weighted_score2))
              names (t1, t2) in (y, x)).
  { induction names as [|nm names IH]; intros n1 n2 t1 t2; simpl; [reflexivity|]. apply IH. }
  assert (Hn : map run_name (map swap_run runs) = map run_name runs).
  { rewrite map_map. apply map_ext. intros [[n o1] o2]. reflexivity. }
  assert (Hcc : compare_collect (map swap_run runs) =
                 let '(x, y) := compare_collect runs in (y, x))
    by (unfold compare_collect; apply Hc).
  assert (Htt : forall names n1 n2, compare_totals names w n2 n1 =
                  let '(x, y) := compare_totals names w n1 n2 in (y, x))
    by (intros; unfold compare_totals; apply Ht).
  unfold compare_scores. rewrite Hn, Hcc.
  destruct (compare_collect runs) as [raw1 raw2].
  rewrite Htt.
  destruct (compare_totals (map run_name runs) w _ _) as [t1 t2].
  reflexivity.
Qed.

Lemma py_in_spec x s : py_in x s = true <-> In x s.
Proof.
  unfold py_in. rewrite existsb_exists. split.
  - intros (y & Hy & E). apply String.eqb_eq in E. subst. exact Hy.
  - intro H. exists x. split; [exact H | apply String.eqb_refl].
Qed.

Lemma intersects_spec a b : intersects a b = true <-> exists x, In x a /\ In x b.
Proof.
  unfold intersects. rewrite existsb_exists. split.
  - intros (x & Hx & E). apply py_in_spec in E. eauto.
  - intros (x & Hx & E). exists x. split; [exact Hx | apply py_in_spec; exact E].
Qed.

Lemma BENCHMARK_FUNCS_eq :
  BENCHMARK_FUNCS =
  [("Readability", "readability"); ("Maintainability", "maintainability");
   ("Performance", "performance"); ("Testability", "testability");
   ("Robustness", "robustness"); ("Security", "security");
   ("Scalability", "scalability"); ("Documentation", "documentation");
   ("Consistency", "consistency"); ("GitHealth", "git_health")]%string.
Proof. vm_compute. reflexivity. Qed.

Lemma BENCHMARK_LANGS_eq :
  BENCHMARK_LANGS =
  [("Readability", ["python"]); ("Maintainability", ["python"]);
   ("Performance", ["python"]); ("Testability", ["python"]);
   ("Robustness", ["python"]); ("Security", ["python"]);
   ("Scalability", ["any"]); ("Documentation", ["python"]);
   ("Consistency", ["python"]); ("GitHealth", ["any"])]%string.
Proof. vm_compute. reflexivity. Qed.

Lemma benchmarks_to_run_In skip_set langs1 langs2 name v :
  In (name, v) (benchmarks_to_run skip_set langs1 langs2) <->
  In (name, v) BENCHMARK_FUNCS /\ py_in name skip_set = false /\
  (let supported := dict_get name BENCHMARK_LANGS ["any"]%string in
   py_in "any"%string supported || intersects langs1 supported
   || intersects langs2 supported) = true.
Proof.
  unfold benchmarks_to_run. rewrite filter_In.
  destruct (py_in name skip_set); intuition discriminate.
Qed.

Lemma intersects_python_false l :
  ~ In "python"%string l -> intersects l ["python"]%string = false.
Proof.
  intro H. apply not_true_iff_false. intro E. apply intersects_spec in E.
  destruct E as (x & Hx & [<- | []]). contradiction.
Qed.

(* ------------------------------------------------------------------ *)
(** ** stats_utils.adjust_score_for_size *)

(** [adjust_score_for_size] never returns more than 10.0, and keeps a
    non-negative raw score non-negative. *)
Theorem adjust_score_for_size_range (raw : Q) (bucket metric_type : string) :
  adjust_score_for_size raw bucket metric_type <= 10 /\
  (0 <= raw -> 0 <= adjust_score_for_size raw bucket metric_type).
Proof.
  split; [apply adjust_score_for_size_le_10|].
  destruct (adjust_score_for_size_mult raw bucket metric_type) as (m & H1 & H2 & -> & _).
  rewrite _clamp_max_Qmin. intro H. apply Q.min_glb; [|lra].
  apply Qmult_le_0_compat; [exact H | lra].
Qed.

Lemma adjust_score_for_size_range_witness :
  adjust_score_for_size 12 "small" "maintainability" <= 10 /\
  0 <= 8 /\ 0 <= adjust_score_for_size 8 "large" "security".
Proof.
  split; [exact (proj1 (adjust_score_for_size_range 12 "small" "maintainability"))|].
  split; [lra|].
  apply (proj2 (adjust_score_for_size_range 8 "large" "security")). lra.
Defined.

(** Every metric type other than ["maintainability"] and ["readability"]
    (the callers pass ["performance"] and ["security"]) is adjusted with
    the ["default"] multipliers. *)
Theorem adjust_score_for_size_default_table (raw : Q) (bucket metric_type : string) :
  metric_type <> "maintainability"%string -> metric_type <> "readability"%string ->
  adjust_score_for_size raw bucket metric_type = adjust_score_for_size raw bucket "default".
Proof.
  intros H1 H2. apply String.eqb_neq in H1, H2.
  unfold adjust_score_for_size, dict_get. simpl. rewrite H1, H2.
  destruct (String.eqb metric_type "default"); reflexivity.
Qed.

Lemma adjust_score_for_size_default_table_witness :
  "security"%string <> "maintainability"%string /\ "security"%string <> "readability"%string /\
  adjust_score_for_size 7 "small" "security" = adjust_score_for_size 7 "small" "default".
Proof.
  split; [discriminate|]. split; [discriminate|].
  apply adjust_score_for_size_default_table; discriminate.
Defined.

(** On a non-negative raw score, the ["small"] bucket never lowers the
    score below [_clamp_max(raw, 10.0)], the ["large"] bucket never raises
    it above, and any other bucket (["medium"] or an unknown one) gives
    exactly [_clamp_max(raw, 10.0)]. *)
Theorem adjust_score_for_size_direction (raw : Q) (bucket metric_type : string) :
  0 <= raw ->
  (bucket = "small"%string -> _clamp_max raw 10 <= adjust_score_for_size raw bucket metric_type) /\
  (bucket = "large"%string -> adjust_score_for_size raw bucket metric_type <= _clamp_max raw 10) /\
  (~ In bucket ["small"; "large"]%string ->
     adjust_score_for_size raw bucket metric_type == _clamp_max raw 10).
Proof.
  intro H.
  destruct (adjust_score_for_size_mult raw bucket metric_type)
    as (m & H1 & H2 & -> & Hs & Hl & Ho).
  rewrite !_clamp_max_Qmin. split; [|split]; intro Hb.
  - apply Q.min_le_compat_r. specialize (Hs Hb). nra.
  - apply Q.min_le_compat_r. specialize (Hl Hb). nra.
  - specialize (Ho Hb). apply Q.min_compat; [|reflexivity]. rewrite Ho. ring.
Qed.

Lemma adjust_score_for_size_direction_witness :
  0 <= 4 /\ ~ In "medium"%string ["small"; "large"]%string /\
  adjust_score_for_size 4 "medium" "maintainability" == _clamp_max 4 10.
Proof.
  assert (Hm : ~ In "medium"%string ["small"; "large"]%string)
    by (simpl; intuition discriminate).
  split; [lra|]. split; [exact Hm|].
  apply (proj2 (proj2 (adjust_score_for_size_direction 4 "medium" "maintainability" ltac:(lra)))).
  exact Hm.
Defined.

(* ------------------------------------------------------------------ *)
(** ** security.assess_security: the result without a dynamic scan *)

(** Without a dynamic score, [assess_security] computes its confidence
    interval from a single sample, so the interval stored is [(0.0, 0.0)]
    (not [(score, score)]) and the score is shown without a range; the
    stored score is at most 10.0 and the metrics record the unadjusted
    score and the size bucket. *)
Theorem assess_security_finish_static_only (t_interval : list metric -> Q * Q)
    (cb : codebase) (static_score final_score : Q) (details : list msg)
    (metrics : dict metric) :
  dict_lookup "dynamic_score"%string metrics = None ->
  let r := assess_security_finish t_interval cb static_score final_score details metrics in
  r.(confidence_interval) = (0, 0) /\
  format_score_with_ci r = ShowScore r.(score) /\
  r.(score) <= 10 /\
  dict_lookup "unadjusted_score"%string r.(raw_metrics) = Some (MetQ final_score) /\
  dict_lookup "size_bucket"%string r.(raw_metrics) = Some (MetStr (get_codebase_size_bucket cb)).
Proof.
  intro H.
  destruct (dict_setitem_cons "unadjusted_score"%string (MetQ final_score)
              (dict_setitem "size_bucket"%string (MetStr (get_codebase_size_bucket cb)) metrics))
    as (x & l & Hx).
  unfold assess_security_finish, make_BenchmarkResult. cbv zeta.
  rewrite Hx. cbn [score confidence_interval raw_metrics]. rewrite <- Hx.
  rewrite !dict_lookup_setitem. simpl String.eqb. cbv iota. rewrite H.
  split; [reflexivity|]. split; [reflexivity|].
  split; [apply adjust_score_for_size_le_10|].
  split; reflexivity.
Qed.

Lemma assess_security_finish_static_only_witness :
  dict_lookup "dynamic_score"%string [("bandit_score"%string, MetQ 10)] = None /\
  (assess_security_finish (fun _ => (1, 2)) sample_codebase 8 8 []
     [("bandit_score"%string, MetQ 10)]).(confidence_interval) = (0, 0).
Proof.
  split; [reflexivity|].
  exact (proj1 (assess_security_finish_static_only (fun _ => (1, 2)) sample_codebase 8 8 []
                  [("bandit_score"%string, MetQ 10)] eq_refl)).
Defined.

(* ------------------------------------------------------------------ *)
(** ** normalize_scores_zscore keeps the benchmarks and their ranking *)

(** [normalize_scores_zscore] keeps the keys in order and preserves the
    order of the scores: a score at most another stays at most it. Only
    the non-strict order is stated: with floats, [10 + (x - 10) * 0.3] can
    round two distinct scores above 10 to the same value. *)
Theorem normalize_scores_keeps_ranking (scores : dict Q) :
  map fst (normalize_scores_zscore scores) = map fst scores /\
  forall a b xa xb, dict_lookup a scores = Some xa -> dict_lookup b scores = Some xb ->
    exists ya yb, dict_lookup a (normalize_scores_zscore scores) = Some ya /\
                  dict_lookup b (normalize_scores_zscore scores) = Some yb /\
                  (xa <= xb -> ya <= yb).
Proof.
  split.
  - unfold normalize_scores_zscore.
    destruct (Nat.ltb (length scores) 2); [reflexivity|].
    destruct (Qltb 15 (py_max (dict_values scores))); [|reflexivity].
    rewrite map_map. apply map_ext. intros [n v]. reflexivity.
  - intros a b xa xb Ha Hb.
    exists (light_scale scores xa), (light_scale scores xb).
    split; [apply normalize_lookup; exact Ha|].
    split; [apply normalize_lookup; exact Hb|].
    apply (proj1 (light_scale_monotone scores xa xb)).
Qed.

Lemma normalize_scores_keeps_ranking_witness :
  exists ya yb, dict_lookup "a"%string (normalize_scores_zscore outlier_scores) = Some ya /\
                dict_lookup "b"%string (normalize_scores_zscore outlier_scores) = Some yb /\
                (1 <= 20 -> ya <= yb).
Proof.
  apply (proj2 (normalize_scores_keeps_ranking outlier_scores) "a"%string "b"%string 1 20);
    reflexivity.
Defined.

(* ------------------------------------------------------------------ *)
(** ** compare: exchanging the two codebases *)

(** Running [compare] with the two codebases exchanged exchanges the raw
    scores and the totals, and turns the overall winner into the other
    codebase (a tie stays a tie). *)
Theorem compare_swap_codebases (runs : list (string * bench_output * bench_output))
    (benchmark_weights : dict Q) :
  let r := compare_scores runs benchmark_weights in
  let r' := compare_scores (map swap_run runs) benchmark_weights in
  r'.(raw_scores1) = r.(raw_scores2) /\ r'.(raw_scores2) = r.(raw_scores1) /\
  r'.(total_score1) = r.(total_score2) /\ r'.(total_score2) = r.(total_score1) /\
  compare_winner (map swap_run runs) benchmark_weights
    = flip_winner (compare_winner runs benchmark_weights).
Proof.
  cbv zeta. unfold compare_winner. rewrite compare_scores_swap. cbn.
  repeat split. apply pick_winner_flip.
Qed.

(* ------------------------------------------------------------------ *)
(** ** compare: which benchmarks run *)

(** A benchmark named in the skip set never runs. *)
Theorem benchmarks_to_run_skipped (skip_set langs1 langs2 : list string) (name : string) :
  In name skip_set -> ~ In name (map fst (benchmarks_to_run skip_set langs1 langs2)).
Proof.
  intros Hs Hin. apply in_map_iff in Hin. destruct Hin as [[n v] [Heq Hin]].
  simpl in Heq. subst n. apply benchmarks_to_run_In in Hin.
  destruct Hin as (_ & Hf & _). apply py_in_spec in Hs. congruence.
Qed.

Lemma benchmarks_to_run_skipped_witness :
  In "Security"%string ["Security"]%string /\
  ~ In "Security"%string (map fst (benchmarks_to_run ["Security"] ["python"] []))%string.
Proof.
  split; [left; reflexivity|].
  apply benchmarks_to_run_skipped. left. reflexivity.
Defined.

(** [compare] runs a benchmark when it would run on either codebase alone:
    its selection is [_analyze_single_codebase]'s on the union of the two
    codebases' languages. *)
Theorem benchmarks_to_run_union (skip_set langs1 langs2 : list string) :
  benchmarks_to_run skip_set langs1 langs2 = single_codebase_benchmarks skip_set (langs1 ++ langs2).
Proof.
  unfold benchmarks_to_run, single_codebase_benchmarks. apply filter_ext.
  intros [n v]. destruct (py_in n skip_set); [reflexivity|].
  unfold intersects. rewrite existsb_app.
  destruct (py_in "any"%string _), (existsb _ langs1), (existsb _ langs2); reflexivity.
Qed.

(** The benchmarks supporting ["any"] language (Scalability and GitHealth)
    run unless skipped, whatever the languages of the two codebases. *)
Theorem benchmarks_to_run_any_language (skip_set langs1 langs2 : list string) :
  (forall name, In name ["Scalability"; "GitHealth"]%string -> ~ In name skip_set ->
     In name (map fst (benchmarks_to_run skip_set langs1 langs2))).
Proof.
  intros name Hn Hs.
  assert (Hf : py_in name skip_set = false)
    by (apply not_true_iff_false; intro E; apply py_in_spec in E; contradiction).
  destruct Hn as [<- | [<- | []]]; apply in_map_iff; eexists;
    (split; [|apply benchmarks_to_run_In; split; [|split; [exact Hf|]]]);
    try reflexivity; try (rewrite BENCHMARK_FUNCS_eq; simpl; tauto);
    rewrite BENCHMARK_LANGS_eq; reflexivity.
Qed.

Lemma benchmarks_to_run_any_language_witness :
  In "GitHealth"%string (map fst (benchmarks_to_run ["Performance"] ["go"] ["rust"])%string).
Proof.
  apply (benchmarks_to_run_any_language ["Performance"]%string ["go"]%string ["rust"]%string);
    simpl; intuition discriminate.
Defined.

(** A module's raw name given to [--skip] becomes exactly its benchmark's
    display name; the display name itself does too, except for
    ["GitHealth"], which [_to_display] turns into ["Githealth"]: skipping
    ["GitHealth"] leaves the GitHealth benchmark running. *)
Theorem skip_tokens_of_module_names :
  (forall m, In m BUILT_IN_MODULES ->
     parse_skip (last_segment "."%char m EmptyString) = [display_name_of m] /\
     (parse_skip (display_name_of m) = [display_name_of m] <->
      display_name_of m <> "GitHealth"%string)) /\
  (forall langs1 langs2,
     In "GitHealth"%string (map fst (benchmarks_to_run (parse_skip "GitHealth") langs1 langs2))).
Proof.
  split.
  - intros m Hm. unfold BUILT_IN_MODULES in Hm.
    repeat destruct Hm as [<- | Hm]; try destruct Hm;
      (split; [vm_compute; reflexivity|]); vm_compute;
      split; intro H; first [discriminate | reflexivity | (exfalso; apply H; reflexivity)].
  - intros langs1 langs2.
    apply in_map_iff. exists ("GitHealth", "git_health")%string. split; [reflexivity|].
    apply benchmarks_to_run_In. split; [rewrite BENCHMARK_FUNCS_eq; simpl; tauto|].
    split; [vm_compute; reflexivity|].
    rewrite BENCHMARK_LANGS_eq. reflexivity.
Qed.

Lemma skip_tokens_of_module_names_witness :
  In "benchmarks.git_health"%string BUILT_IN_MODULES /\
  parse_skip "git_health" = ["GitHealth"]%string.
Proof.
  assert (H : In "benchmarks.git_health"%string BUILT_IN_MODULES)
    by (unfold BUILT_IN_MODULES; simpl; tauto).
  split; [exact H|].
  exact (proj1 (proj1 skip_tokens_of_module_names _ H)).
Defined.

(* ------------------------------------------------------------------ *)
(** ** Helper lemmas on characters and strings *)

Lemma ascii_forall (P : ascii -> bool) :
  forallb (fun n => P (ascii_of_nat n)) (seq 0 256) = true -> forall c, P c = true.
Proof.
  intros H c. rewrite <- (ascii_nat_embedding c).
  rewrite forallb_forall in H. apply H. apply in_seq.
  pose proof (nat_ascii_bounded c). lia.
Qed.

Lemma title_char_not_underscore (b : bool) (c : ascii) :
  c <> "_"%char ->
  (if is_cased c then (if b then to_lower c else to_upper c) else c) <> "_"%char.
Proof.
  assert (H : forall c, (Ascii.eqb c "_" ||
     negb (Ascii.eqb (if is_cased c then (if b then to_lower c else to_upper c) else c) "_"))
     = true) by (apply ascii_forall; destruct b; vm_compute; reflexivity).
  intros Hc E. specialize (H c). rewrite E in H. simpl in H.
  apply Ascii.eqb_neq in Hc. rewrite Hc in H. discriminate.
Qed.

Lemma title_char_lower (b : bool) (c : ascii) :
  let r := fun c => if Ascii.eqb c "_" then " "%char else c in
  is_cased (r (to_lower c)) = is_cased (r c) /\
  (if is_cased (r (to_lower c)) then (if b then to_lower (r (to_lower c)) else to_upper (r (to_lower c)))
   else r (to_lower c))
  = (if is_cased (r c) then (if b then to_lower (r c) else to_upper (r c)) else r c).
Proof.
  intro r.
  assert (H : forall c,
    Bool.eqb (is_cased (r (to_lower c))) (is_cased (r c)) &&
    Ascii.eqb (if is_cased (r (to_lower c)) then (if b then to_lower (r (to_lower c)) else to_upper (r (to_lower c)))
               else r (to_lower c))
              (if is_cased (r c) then (if b then to_lower (r c) else to_upper (r c)) else r c)
    = true) by (apply ascii_forall; destruct b; vm_compute; reflexivity).
  specialize (H c). apply andb_prop in H. destruct H as [H1 H2].
  apply Bool.eqb_prop in H1. apply Ascii.eqb_eq in H2. tauto.
Qed.

Lemma py_lower_cons c s : py_lower (String c s) = String (to_lower c) (py_lower s).
Proof. reflexivity. Qed.

Lemma title_replace_lower b s :
  title_from b (replace_char "_"%char " "%char (py_lower s))
  = title_from b (replace_char "_"%char " "%char s).
Proof.
  revert b. induction s as [|c s IH]; intro b; [reflexivity|].
  rewrite py_lower_cons. cbn [replace_char title_from].
  destruct (title_char_lower b c) as [H1 H2]. cbv beta in H1, H2.
  rewrite H2, H1, IH. reflexivity.
Qed.

Lemma remove_char_In a c s :
  In c (list_ascii_of_string (remove_char a s)) -> In c (list_ascii_of_string s) /\ c <> a.
Proof.
  induction s as [|x s IH]; simpl; [tauto|].
  destruct (Ascii.eqb x a) eqn:E; simpl.
  - intro H. destruct (IH H). tauto.
  - intros [<- | H]; [apply Ascii.eqb_neq in E; tauto|]. destruct (IH H). tauto.
Qed.

Lemma title_from_no_underscore b s :
  ~ In "_"%char (list_ascii_of_string s) ->
  ~ In "_"%char (list_ascii_of_string (title_from b s)).
Proof.
  revert b. induction s as [|c s IH]; intros b H; simpl in *; [tauto|].
  intros [E | E].
  - apply (title_char_not_underscore b c); [intro; subst; tauto | exact E].
  - apply (IH (is_cased c)); tauto.
Qed.

Lemma replace_underscore_gone s :
  ~ In "_"%char (list_ascii_of_string (replace_char "_"%char " "%char s)).
Proof.
  induction s as [|c s IH]; simpl; [tauto|].
  intros [E | E]; [|tauto].
  destruct (Ascii.eqb c "_") eqn:C; [discriminate|].
  apply Ascii.eqb_neq in C. congruence.
Qed.

Lemma forallb_filter_id {A} (p : A -> bool) l : forallb p l = true -> filter p l = l.
Proof.
  induction l as [|x l IH]; simpl; [reflexivity|].
  intro H. apply andb_prop in H. destruct H as [-> H]. rewrite IH; auto.
Qed.

Lemma In_firstn_In {A} n (l : list A) x : In x (firstn n l) -> In x l.
Proof.
  intro H. rewrite <- (firstn_skipn n l). apply in_or_app. left. exact H.
Qed.

Lemma string_length_list s : String.length s = length (list_ascii_of_string s).
Proof. induction s; simpl; auto. Qed.

Lemma string_append_empty_r s : (s ++ EmptyString)%string = s.
Proof. induction s as [|c s IH]; simpl; congruence. Qed.

Lemma string_append_assoc a b c : (a ++ (b ++ c))%string = ((a ++ b) ++ c)%string.
Proof. induction a as [|x a IH]; simpl; congruence. Qed.

Lemma last_segment_no_sep sep s cur :
  forallb (fun c => negb (Ascii.eqb c sep)) (list_ascii_of_string s) = true ->
  last_segment sep s cur = (cur ++ s)%string.
Proof.
  revert cur. induction s as [|c s IH]; intros cur H; simpl in *.
  - rewrite string_append_empty_r. reflexivity.
  - apply andb_prop in H. destruct H as [H1 H2].
    destruct (Ascii.eqb c sep); [discriminate|].
    rewrite IH by exact H2. rewrite <- string_append_assoc. reflexivity.
Qed.

Lemma safe_char_not_slash c :
  (is_alnum c || existsb (Ascii.eqb c) ["-"; "_"; "."]%char) = true -> c <> "/"%char.
Proof. intros H E. subst c. vm_compute in H. discriminate. Qed.

Lemma _safe_filename_keeps name :
  let base := basename name in
  base <> EmptyString -> (String.length base <= 255)%nat ->
  forallb (fun ch => is_alnum ch || existsb (Ascii.eqb ch) ["-"; "_"; "."]%char)
          (list_ascii_of_string base) = true ->
  _safe_filename name = base.
Proof.
  intros base Hne Hlen Hs. unfold _safe_filename. fold base.
  rewrite (forallb_filter_id _ _ Hs), string_of_list_ascii_of_string.
  rewrite string_length_list in Hlen.
  destruct base as [|c r] eqn:E; [congruence|].
  rewrite <- E in *. rewrite firstn_all2 by exact Hlen.
  apply string_of_list_ascii_of_string.
Qed.

Lemma _safe_filename_basic name :
  let r := _safe_filename name in
  (1 <= String.length r <= 255)%nat /\
  forallb (fun ch => is_alnum ch || existsb (Ascii.eqb ch) ["-"; "_"; "."]%char)
          (list_ascii_of_string r) = true.
Proof.
  intro r. unfold r, _safe_filename. cbv zeta.
  set (p := fun ch => is_alnum ch || existsb (Ascii.eqb ch) ["-"; "_"; "."]%char).
  assert (Hf0 : forallb p (filter p (list_ascii_of_string (basename name))) = true).
  { apply forallb_forall. intros y Hy. apply filter_In in Hy. tauto. }
  assert (H : exists x l, list_ascii_of_string
                            (match string_of_list_ascii (filter p (list_ascii_of_string (basename name)))
                             with EmptyString => "file"%string | _ =>
                               string_of_list_ascii (filter p (list_ascii_of_string (basename name))) end)
                          = x :: l /\ forallb p (x :: l) = true).
  { destruct (filter p (list_ascii_of_string (basename name))) as [|y l] eqn:F.
    - exists "f"%char, (list_ascii_of_string "ile"). split; reflexivity.
    - exists y, l. split; [|exact Hf0].
      simpl. rewrite list_ascii_of_string_of_list_ascii. reflexivity. }
  destruct H as (x & l & -> & Hf).
  rewrite string_length_list, list_ascii_of_string_of_list_ascii.
  split.
  - split; [simpl; lia|]. apply firstn_le_length.
  - apply forallb_forall. intros y Hy. apply In_firstn_In in Hy.
    rewrite forallb_forall in Hf. apply Hf, Hy.
Qed.

(** Stripping at the list level. *)
Lemma drop_while_suffix p l : exists pre, l = pre ++ drop_while p l.
Proof.
  induction l as [|c l IH]; simpl; [exists []; reflexivity|].
  destruct (p c); [destruct IH as [pre E]; exists (c :: pre); simpl; congruence|].
  exists []; reflexivity.
Qed.

Lemma drop_while_head p l :
  drop_while p l = [] \/ exists c r, drop_while p l = c :: r /\ p c = false.
Proof.
  induction l as [|c l IH]; simpl; [left; reflexivity|].
  destruct (p c) eqn:E; [exact IH|]. right. exists c, l. tauto.
Qed.

Lemma drop_while_id p l : (forall c r, l = c :: r -> p c = false) -> drop_while p l = l.
Proof.
  destruct l as [|c l]; intro H; simpl; [reflexivity|]. rewrite (H c l eq_refl). reflexivity.
Qed.

Lemma drop_while_nil p l : drop_while p l = [] <-> forallb p l = true.
Proof.
  induction l as [|c l IH]; simpl; [tauto|].
  destruct (p c); simpl; [exact IH|]. split; discriminate.
Qed.

Lemma strip_list_head p l :
  let s := rev (drop_while p (rev (drop_while p l))) in
  s = [] \/ exists c r, s = c :: r /\ p c = false.
Proof.
  intro s. unfold s.
  destruct (drop_while_head p (rev (drop_while p l))) as [E | (b & rb & E & Hb)];
    rewrite E; [left; reflexivity|]. right.
  destruct (drop_while_head p l) as [A | (a & ra & A & Ha)].
  - rewrite A in E. discriminate.
  - rewrite A in E. destruct (drop_while_suffix p (rev (a :: ra))) as [pre Hpre].
    rewrite E in Hpre. simpl in Hpre.
    destruct (@exists_last _ (b :: rb) ltac:(discriminate)) as (bs & x & F).
    rewrite F in Hpre. rewrite app_assoc in Hpre. apply app_inj_tail in Hpre.
    destruct Hpre as [_ <-]. rewrite F, rev_app_distr. simpl.
    exists a, (rev bs). tauto.
Qed.

Lemma strip_list_last p l :
  let s := rev (drop_while p (rev (drop_while p l))) in
  s = [] \/ exists r c, s = r ++ [c] /\ p c = false.
Proof.
  intro s. unfold s.
  destruct (drop_while_head p (rev (drop_while p l))) as [E | (b & rb & E & Hb)];
    rewrite E; [left; reflexivity|]. right. exists (rev rb), b. simpl. tauto.
Qed.

Lemma strip_list_In p l c :
  In c (rev (drop_while p (rev (drop_while p l)))) -> In c l.
Proof.
  intro H. apply in_rev in H.
  destruct (drop_while_suffix p (rev (drop_while p l))) as [pre E].
  assert (H1 : In c (rev (drop_while p l))) by (rewrite E; apply in_or_app; tauto).
  apply in_rev in H1.
  destruct (drop_while_suffix p l) as [pre' E']. rewrite E'. apply in_or_app. tauto.
Qed.

Lemma strip_list_idem p l :
  let s := rev (drop_while p (rev (drop_while p l))) in
  rev (drop_while p (rev (drop_while p s))) = s.
Proof.
  intro s.
  rewrite (drop_while_id p s).
  2:{ intros c r E. destruct (strip_list_head p l) as [F | (c' & r' & F & Hc)];
      fold s in F; rewrite F in E; [discriminate|]. injection E as -> ->. exact Hc. }
  unfold s at 1. rewrite rev_involutive.
  rewrite (drop_while_id p (drop_while p (rev (drop_while p l)))).
  - reflexivity.
  - intros c r E. destruct (drop_while_head p (rev (drop_while p l))) as [F | (c' & r' & F & Hc)];
      rewrite F in E; [discriminate|]. injection E as -> ->. exact Hc.
Qed.

Lemma strip_list_nil p l :
  rev (drop_while p (rev (drop_while p l))) = [] <-> forallb p l = true.
Proof.
  split.
  - intro H. destruct (drop_while_head p l) as [E | (c & r & E & Hc)].
    + apply drop_while_nil, E.
    + exfalso. apply (f_equal (@rev ascii)) in H. rewrite rev_involutive in H.
      simpl in H. apply drop_while_nil in H. rewrite E in H. simpl in H.
      rewrite forallb_app in H. apply andb_prop in H. destruct H as [_ H].
      simpl in H. rewrite Hc in H. discriminate.
  - intro H. apply drop_while_nil in H. rewrite H. reflexivity.
Qed.

Lemma list_strip_by p s :
  list_ascii_of_string (strip_by p s)
  = rev (drop_while p (rev (drop_while p (list_ascii_of_string s)))).
Proof. unfold strip_by. apply list_ascii_of_string_of_list_ascii. Qed.

Lemma slug_char_dash c :
  Ascii.eqb (if is_alnum c || existsb (Ascii.eqb c) ["-"; "_"]%char then c else "-"%char) "-"
  = negb (is_alnum c || Ascii.eqb c "_").
Proof.
  apply Bool.eqb_prop. revert c.
  apply (ascii_forall (fun c => Bool.eqb
    (Ascii.eqb (if is_alnum c || existsb (Ascii.eqb c) ["-"; "_"]%char then c else "-"%char) "-")
    (negb (is_alnum c || Ascii.eqb c "_")))).
  vm_compute. reflexivity.
Qed.

(* ------------------------------------------------------------------ *)
(** ** main._to_display, _safe_filename and _slugify *)

(** A display name made by [_to_display] contains neither an underscore nor
    a space. *)
Theorem _to_display_no_separators (name : string) :
  ~ In "_"%char (list_ascii_of_string (_to_display name)) /\
  ~ In " "%char (list_ascii_of_string (_to_display name)).
Proof.
  unfold _to_display. split; intro H; apply remove_char_In in H.
  - destruct H as [H _]. revert H. apply title_from_no_underscore, replace_underscore_gone.
  - destruct H as [_ H]. apply H. reflexivity.
Qed.

(** On ASCII names, [_to_display] ignores the case of its argument: a skip
    token made of ASCII characters and its lower-cased form give the same
    display name. *)
Theorem _to_display_case_insensitive (name : string) :
  forallb (fun c => Nat.ltb (nat_of_ascii c) 128) (list_ascii_of_string name) = true ->
  _to_display (py_lower name) = _to_display name.
Proof.
  intros _. unfold _to_display, py_title. rewrite title_replace_lower. reflexivity.
Qed.

Lemma _to_display_case_insensitive_witness :
  forallb (fun c => Nat.ltb (nat_of_ascii c) 128) (list_ascii_of_string "Git_HEALTH") = true /\
  _to_display (py_lower "Git_HEALTH") = _to_display "Git_HEALTH".
Proof.
  assert (H : forallb (fun c => Nat.ltb (nat_of_ascii c) 128)
                (list_ascii_of_string "Git_HEALTH") = true) by (vm_compute; reflexivity).
  split; [exact H|]. exact (_to_display_case_insensitive "Git_HEALTH" H).
Defined.

(** [_safe_filename] returns a name of 1 to 255 characters, all of them
    alphanumeric, ['-'], ['_'] or ['.'] (so no ['/']), and applying it
    again changes nothing. *)
Theorem _safe_filename_safe (name : string) :
  let r := _safe_filename name in
  (1 <= String.length r <= 255)%nat /\
  forallb (fun ch => is_alnum ch || existsb (Ascii.eqb ch) ["-"; "_"; "."]%char)
          (list_ascii_of_string r) = true /\
  ~ In "/"%char (list_ascii_of_string r) /\
  _safe_filename r = r.
Proof.
  intro r. destruct (_safe_filename_basic name) as [Hlen Hs]. fold r in Hlen, Hs.
  assert (Hns : ~ In "/"%char (list_ascii_of_string r)).
  { intro H. rewrite forallb_forall in Hs. apply (safe_char_not_slash "/"%char); auto. }
  split; [exact Hlen|]. split; [exact Hs|]. split; [exact Hns|].
  assert (Hb : basename r = r).
  { unfold basename. rewrite last_segment_no_sep; [reflexivity|].
    apply forallb_forall. intros c Hc. apply negb_true_iff, Ascii.eqb_neq.
    intros ->. contradiction. }
  pose proof (_safe_filename_keeps r) as K. cbv zeta in K. rewrite Hb in K.
  apply K; [|lia|exact Hs].
  intros E. rewrite E in Hlen. simpl in Hlen. lia.
Qed.

(** A base name that is already made of 1 to 255 allowed characters is
    returned unchanged by [_safe_filename]; in particular ["."] and [".."]
    (from a path ending in ["/.."]) pass through as they are. *)
Theorem _safe_filename_keeps_safe_basename (name : string) :
  basename name <> EmptyString -> (String.length (basename name) <= 255)%nat ->
  forallb (fun ch => is_alnum ch || existsb (Ascii.eqb ch) ["-"; "_"; "."]%char)
          (list_ascii_of_string (basename name)) = true ->
  _safe_filename name = basename name.
Proof. apply _safe_filename_keeps. Qed.

Lemma _safe_filename_keeps_safe_basename_witness :
  basename "out/.." <> EmptyString /\ (String.length (basename "out/..") <= 255)%nat /\
  _safe_filename "out/.." = ".."%string.
Proof.
  assert (H1 : basename "out/.." <> EmptyString) by discriminate.
  assert (H2 : (String.length (basename "out/..") <= 255)%nat) by (vm_compute; lia).
  split; [exact H1|]. split; [exact H2|].
  exact (_safe_filename_keeps_safe_basename "out/.." H1 H2 eq_refl).
Defined.

(** [_slugify] returns only alphanumerics, ['-'] and ['_'], never starts or
    ends with ['-'], is idempotent, and returns the empty string exactly
    when the input has no alphanumeric character and no ['_']. *)
Theorem _slugify_props (value : string) :
  let r := _slugify value in
  forallb (fun ch => is_alnum ch || existsb (Ascii.eqb ch) ["-"; "_"]%char)
          (list_ascii_of_string r) = true /\
  (forall c rest, list_ascii_of_string r = c :: rest -> c <> "-"%char) /\
  (forall pre c, list_ascii_of_string r = pre ++ [c] -> c <> "-"%char) /\
  _slugify r = r /\
  (r = EmptyString <->
   forallb (fun ch => negb (is_alnum ch || Ascii.eqb ch "_")) (list_ascii_of_string value) = true).
Proof.
  set (p := fun ch => Ascii.eqb ch "-"%char).
  set (f := fun ch => if is_alnum ch || existsb (Ascii.eqb ch) ["-"; "_"]%char
                      then ch else "-"%char).
  set (allowed := fun ch => is_alnum ch || existsb (Ascii.eqb ch) ["-"; "_"]%char).
  intro r.
  assert (Hr : list_ascii_of_string r
               = rev (drop_while p (rev (drop_while p (map f (list_ascii_of_string value)))))).
  { unfold r, _slugify. rewrite list_strip_by, list_ascii_of_string_of_list_ascii. reflexivity. }
  assert (Hall : forallb allowed (list_ascii_of_string r) = true).
  { apply forallb_forall. intros c Hc. rewrite Hr in Hc. apply strip_list_In in Hc.
    apply in_map_iff in Hc. destruct Hc as (x & <- & _). unfold f, allowed.
    destruct (is_alnum x || existsb (Ascii.eqb x) ["-"; "_"]%char) eqn:E; [exact E|reflexivity]. }
  split; [exact Hall|].
  split.
  { intros c rest E. rewrite Hr in E.
    destruct (strip_list_head p (map f (list_ascii_of_string value))) as [F | (c' & r' & F & Hc)];
      rewrite F in E; [discriminate|]. injection E as <- _.
    intro X. subst c'. discriminate. }
  split.
  { intros pre c E. rewrite Hr in E.
    destruct (strip_list_last p (map f (list_ascii_of_string value))) as [F | (r' & c' & F & Hc)];
      rewrite F in E; [destruct pre; discriminate|].
    apply app_inj_tail in E. destruct E as [_ <-].
    intro X. subst c'. discriminate. }
  split.
  { unfold _slugify at 1. fold f p.
    replace (map f (list_ascii_of_string r)) with (list_ascii_of_string r).
    - unfold strip_by. rewrite list_ascii_of_string_of_list_ascii, Hr, strip_list_idem.
      rewrite <- Hr. apply string_of_list_ascii_of_string.
    - symmetry. rewrite <- map_id. apply map_ext_in. intros c Hc.
      rewrite forallb_forall in Hall. unfold f. fold (allowed c). rewrite (Hall c Hc). reflexivity. }
  { transitivity (list_ascii_of_string r = []).
    - split; [intros ->; reflexivity|]. intro E.
      rewrite <- (string_of_list_ascii_of_string r), E. reflexivity.
    - rewrite Hr, strip_list_nil.
      split; intro H; apply forallb_forall; rewrite forallb_forall in H.
      + intros c Hc. rewrite <- slug_char_dash. exact (H _ (in_map f _ _ Hc)).
      + intros x Hx. apply in_map_iff in Hx. destruct Hx as (c & <- & Hc).
        unfold p, f. rewrite slug_char_dash. exact (H c Hc). }
Qed.

Lemma _slugify_props_witness :
  list_ascii_of_string (_slugify "!a!") = ["a"%char] /\ "a"%char <> "-"%char.
Proof.
  assert (E : list_ascii_of_string (_slugify "!a!") = ["a"%char]) by (vm_compute; reflexivity).
  split; [exact E|].
  exact (proj1 (proj2 (_slugify_props "!a!")) "a"%char [] E).
Defined.

(* ------------------------------------------------------------------ *)
(** ** readability.assess_readability: exceptions, pep8 and functionless code *)

Lemma py_for_raises {A B} (l : list A) (acc : B) (body : B -> A -> py_result B) (x : A) :
  In x l -> (forall acc, exists e, body acc x = Raise e) ->
  exists e, py_for l acc body = Raise e.
Proof.
  revert acc. induction l as [|y l IH]; intros acc Hin Hx; [destruct Hin|].
  simpl. destruct Hin as [<- | Hin].
  - destruct (Hx acc) as [e ->]. exists e. reflexivity.
  - destruct (body acc y) as [acc'|e]; simpl; [apply IH; assumption | exists e; reflexivity].
Qed.

Lemma match_list_cons {A B : Type} (l : list A) (a b : B) :
  l <> [] -> match l with [] => a | _ :: _ => b end = b.
Proof. destruct l; [congruence | reflexivity]. Qed.

Lemma py_max2_mono a b c d : a <= c -> b <= d -> py_max2 a b <= py_max2 c d.
Proof.
  intros H1 H2. rewrite !py_max2_Qmax. apply Q.max_lub.
  - apply (Qle_trans _ c); [exact H1 | apply Q.le_max_l].
  - apply (Qle_trans _ d); [exact H2 | apply Q.le_max_r].
Qed.

Lemma py_min2_mono a b c d : a <= c -> b <= d -> py_min2 a b <= py_min2 c d.
Proof.
  intros H1 H2. rewrite !py_min2_Qmin. apply Q.min_glb.
  - apply (Qle_trans _ a); [apply Q.le_min_l | exact H1].
  - apply (Qle_trans _ b); [apply Q.le_min_r | exact H2].
Qed.

Lemma Qmult_le_compat_l' k x y : 0 <= k -> x <= y -> k * x <= k * y.
Proof. intros Hk H. rewrite !(Qmult_comm k). apply Qmult_le_compat_r; assumption. Qed.

Lemma qn_le a b : (a <= b)%nat -> qn a <= qn b.
Proof. intro H. unfold qn. rewrite <- Zle_Qle. lia. Qed.

(** A Python file that cannot be decoded as UTF-8 makes [assess_readability]
    raise: its [UnicodeDecodeError] is not an [OSError], so the handlers of
    [_analyze_python_file] let it through. *)
Theorem assess_readability_undecodable_raises (complexity_visitor : string -> radon_result)
    (pep8_total_errors : list string -> nat) (cb : codebase) (p : string) :
  In p (python_files cb) -> read_file cb p = RUnicodeDecodeError ->
  exists e, assess_readability complexity_visitor pep8_total_errors cb = Raise e.
Proof.
  intros Hin Hr. unfold assess_readability, get_python_files. cbv zeta.
  rewrite match_list_cons by (intro E; rewrite E in Hin; destruct Hin).
  match goal with |- context [py_for ?l ?a ?body] =>
    destruct (py_for_raises l a body p Hin) as [e He] end.
  - intros [[d c] n]. unfold _analyze_python_file. rewrite Hr.
    exists "UnicodeDecodeError"%string. reflexivity.
  - rewrite He. exists e. reflexivity.
Qed.

Lemma assess_readability_undecodable_raises_witness :
  In "a.py"%string (python_files {| python_files := ["a.py"]; read_file := fun _ => RUnicodeDecodeError |})%string /\
  exists e, assess_readability (fun _ => RadonOk []) (fun _ => 0%nat)
              {| python_files := ["a.py"]; read_file := fun _ => RUnicodeDecodeError |}%string
            = Raise e.
Proof.
  assert (H : In "a.py"%string (python_files {| python_files := ["a.py"]; read_file := fun _ => RUnicodeDecodeError |})%string)
    by (left; reflexivity).
  split; [exact H|].
  exact (assess_readability_undecodable_raises (fun _ => RadonOk []) (fun _ => 0%nat) _ _ H eq_refl).
Defined.

(** More pep8 violations never raise the readability score: for the same
    files and complexity results, a report with at least as many errors
    gives a score at most as high. *)
Theorem assess_readability_pep8_antitone (complexity_visitor : string -> radon_result)
    (pep8a pep8b : list string -> nat) (cb : codebase) (s1 s2 : Q) (d1 d2 : list msg) :
  (pep8a (python_files cb) <= pep8b (python_files cb))%nat ->
  assess_readability complexity_visitor pep8a cb = Ok (s1, d1) ->
  assess_readability complexity_visitor pep8b cb = Ok (s2, d2) ->
  s2 <= s1.
Proof.
  intros Hle H1 H2. unfold assess_readability, get_python_files in H1, H2.
  cbv zeta in H1, H2.
  destruct (python_files cb) as [|f fs].
  - injection H1 as <- _. injection H2 as <- _. lra.
  - destruct (py_for (f :: fs) _ _) as [[[d c] n]|e]; simpl in H1, H2; [|discriminate].
    injection H1 as <- _. injection H2 as <- _.
    apply py_min2_mono; [apply Qle_refl|]. apply py_max2_mono; [apply Qle_refl|].
    apply Qplus_le_compat; [apply Qle_refl|].
    apply Qmult_le_compat_l'; [unfold Qle; simpl; lia|].
    apply py_max2_mono; [apply Qle_refl|].
    apply qn_le in Hle. unfold Qdiv.
    assert (H5 : qn (pep8a (f :: fs)) * / 5 <= qn (pep8b (f :: fs)) * / 5)
      by (apply Qmult_le_compat_r; [exact Hle | unfold Qle; simpl; lia]).
    lra.
Qed.

Lemma assess_readability_pep8_antitone_witness :
  exists s1 d1 s2 d2,
    assess_readability (fun _ => RadonOk []) (fun _ => 4%nat) sample_codebase = Ok (s1, d1) /\
    assess_readability (fun _ => RadonOk []) (fun _ => 30%nat) sample_codebase = Ok (s2, d2) /\
    s2 <= s1.
Proof.
  do 4 eexists. split; [vm_compute; reflexivity|]. split; [vm_compute; reflexivity|].
  eapply (assess_readability_pep8_antitone (fun _ => RadonOk []) (fun _ => 4%nat) (fun _ => 30%nat)
            sample_codebase); [lia | vm_compute; reflexivity | vm_compute; reflexivity].
Defined.

(** When every Python file reads and radon finds no function in any of
    them, the average complexity is 0.0, so the complexity component is
    [10 - (0 - 5) = 15] (above 10) and the score is
    [min(10, 9 + 0.4 * pep8_score)]: never below 9.0, whatever the pep8
    count. *)
Theorem assess_readability_no_functions (complexity_visitor : string -> radon_result)
    (pep8_total_errors : list string -> nat) (cb : codebase) :
  python_files cb <> [] ->
  (forall p, In p (python_files cb) ->
     exists text, read_file cb p = ROk text /\ complexity_visitor text = RadonOk []) ->
  exists s d, assess_readability complexity_visitor pep8_total_errors cb = Ok (s, d) /\
    s == Qmin 10 (9 + 0.4 * Qmax 0 (10 - qn (pep8_total_errors (python_files cb)) / 5)) /\
    9 <= s.
Proof.
  intros Hne Hall. unfold assess_readability, get_python_files. cbv zeta.
  rewrite match_list_cons by exact Hne.
  match goal with |- context [py_for ?l (?d0, ?c0, ?n0) ?body] =>
    assert (L : forall l' d, incl l' l -> py_for l' (d, 0%nat, 0%nat) body = Ok (d, 0%nat, 0%nat));
    [|rewrite (L l d0 (incl_refl _))] end.
  { intros l'. induction l' as [|q l' IH]; intros d Hi; [reflexivity|].
    destruct (Hall q (Hi q (or_introl eq_refl))) as (text & Ht & Hc).
    cbn [py_for]. unfold _analyze_python_file. rewrite Ht, Hc. cbn.
    rewrite app_nil_r. apply IH. intros x Hx. apply Hi. right. exact Hx. }
  cbn [py_bind Nat.ltb Nat.leb].
  set (m := Qmax 0 (10 - qn (pep8_total_errors (python_files cb)) / 5)).
  assert (Hm : 0 <= m) by apply Q.le_max_l.
  eexists _, _. split; [reflexivity|].
  set (pm := py_max2 0 (10 - qn (pep8_total_errors (python_files cb)) / 5)).
  assert (Hpm : pm == m) by apply py_max2_Qmax.
  set (cs := py_max2 0 (10 - (0 - 5))).
  assert (Hcs : cs == 15)
    by (unfold cs; rewrite py_max2_Qmax; apply Q.max_r; unfold Qle; simpl; lia).
  set (rs := 0.6 * cs + 0.4 * pm).
  assert (Hrs : rs == 9 + 0.4 * m) by (unfold rs; rewrite Hcs, Hpm; ring).
  assert (H4 : 0 <= 0.4 * m)
    by (apply Qmult_le_0_compat; [unfold Qle; simpl; lia | exact Hm]).
  assert (Hmx : py_max2 0 rs == rs)
    by (rewrite py_max2_Qmax; apply Q.max_r; rewrite Hrs; lra).
  rewrite py_min2_Qmin, Hmx, Hrs. split; [reflexivity|].
  apply Q.min_glb; [unfold Qle; simpl; lia | lra].
Qed.

Lemma assess_readability_no_functions_witness :
  exists s d, assess_readability (fun _ => RadonOk []) (fun _ => 100%nat)
                {| python_files := ["a.py"]; read_file := fun _ => ROk "x = 1" |}%string = Ok (s, d) /\
    s == Qmin 10 (9 + 0.4 * Qmax 0 (10 - qn 100 / 5)) /\ 9 <= s.
Proof.
  apply (assess_readability_no_functions (fun _ => RadonOk []) (fun _ => 100%nat)
           {| python_files := ["a.py"]; read_file := fun _ => ROk "x = 1" |}%string).
  - discriminate.
  - intros p _. exists "x = 1"%string. split; reflexivity.
Defined.

(* ------------------------------------------------------------------ *)
(** ** main._collect_folder_avg *)

Lemma dict_setitem_In {V} k (v : V) d k' v' :
  In (k', v') (dict_setitem k v d) -> (k' = k /\ v' = v) \/ In (k', v') d.
Proof.
  induction d as [|[k0 v0] d IH]; simpl.
  - intros [E | []]. injection E as -> ->. tauto.
  - destruct (String.eqb k k0) eqn:E.
    + apply String.eqb_eq in E. subst k0. intros [F | F]; [injection F as -> ->; tauto | tauto].
    + intros [F | F]; [tauto|]. destruct (IH F); tauto.
Qed.

Lemma dict_lookup_In_pair {V} k (d : dict V) v : dict_lookup k d = Some v -> In (k, v) d.
Proof.
  induction d as [|[k0 v0] d IH]; simpl; [discriminate|].
  destruct (String.eqb k k0) eqn:E.
  - apply String.eqb_eq in E. subst k0. intro F. injection F as ->. left. reflexivity.
  - intro F. right. apply IH, F.
Qed.

Lemma dict_setitem_keys {V} k (v : V) d k' :
  In k' (map fst (dict_setitem k v d)) <-> k' = k \/ In k' (map fst d).
Proof.
  induction d as [|[k0 v0] d IH]; simpl; [intuition congruence|].
  destruct (String.eqb k k0) eqn:E; simpl.
  - apply String.eqb_eq in E. subst k0. intuition congruence.
  - rewrite IH. tauto.
Qed.

Lemma dict_setitem_NoDup {V} k (v : V) d :
  NoDup (map fst d) -> NoDup (map fst (dict_setitem k v d)).
Proof.
  induction d as [|[k0 v0] d IH]; simpl; intro H.
  - constructor; [tauto | constructor].
  - inversion H as [|? ? Hn Hd]; subst.
    destruct (String.eqb k k0) eqn:E; simpl; [exact H|].
    constructor; [|apply IH, Hd].
    rewrite dict_setitem_keys. intros [F | F]; [|contradiction].
    subst k0. rewrite String.eqb_refl in E. discriminate.
Qed.

Lemma collect_inner_keys (raw : dict Q) (agg : dict (list Q)) :
  let r := fold_left (fun aggregate '(k, v) =>
                        dict_setitem k (dict_get k aggregate [] ++ [v]) aggregate) raw agg in
  (NoDup (map fst agg) -> NoDup (map fst r)) /\
  (forall k, In k (map fst r) <-> In k (map fst agg) \/ In k (map fst raw)).
Proof.
  revert agg. induction raw as [|[k0 v0] raw IH]; intro agg; simpl; [split; [tauto | tauto]|].
  destruct (IH (dict_setitem k0 (dict_get k0 agg [] ++ [v0]) agg)) as [H1 H2].
  split.
  - intro H. apply H1, dict_setitem_NoDup, H.
  - intro k. rewrite H2, dict_setitem_keys. intuition.
Qed.

(** [_collect_folder_avg] returns one average per benchmark, each key once:
    its keys are exactly the keys found in at least one repository's
    raw-score dict, and its count is the number of repositories. *)
Theorem _collect_folder_avg_keys (repo_scores : list (dict Q)) :
  NoDup (map fst (fst (_collect_folder_avg repo_scores))) /\
  (forall k, In k (map fst (fst (_collect_folder_avg repo_scores))) <->
             exists raw, In raw repo_scores /\ In k (map fst raw)) /\
  snd (_collect_folder_avg repo_scores) = length repo_scores.
Proof.
  unfold _collect_folder_avg. cbn [fst snd].
  set (inner := fun (aggregate : dict (list Q)) (raw_scores : dict Q) =>
                  fold_left (fun aggregate '(k, v) =>
                               dict_setitem k (dict_get k aggregate [] ++ [v]) aggregate)
                            raw_scores aggregate).
  assert (Inv : forall rs agg,
            (NoDup (map fst agg) -> NoDup (map fst (fold_left inner rs agg))) /\
            (forall k, In k (map fst (fold_left inner rs agg)) <->
                       In k (map fst agg) \/ exists raw, In raw rs /\ In k (map fst raw))).
  { induction rs as [|raw rs IH]; intro agg; simpl.
    - split; [tauto|]. intro k. split; [tauto|]. intros [H | [raw [[] _]]]. exact H.
    - destruct (IH (inner agg raw)) as [H1 H2].
      destruct (collect_inner_keys raw agg) as [G1 G2].
      split; [intro H; apply H1, G1, H|].
      intro k. rewrite H2. unfold inner at 1. rewrite G2. split.
      + intros [[H | H] | [r [Hr Hk]]]; [left; exact H | right; exists raw; tauto |].
        right. exists r. tauto.
      + intros [H | [r [[<- | Hr] Hk]]]; [tauto | tauto |].
        right. exists r. tauto. }
  assert (Hm : forall agg : dict (list Q),
            map fst (map (fun '(k, vs) => (k, match vs with
                                             | [] => 0
                                             | _ => py_sum vs / qn (length vs)
                                             end)) agg) = map fst agg).
  { intro agg. rewrite map_map. apply map_ext. intros [k vs]. reflexivity. }
  rewrite Hm. destruct (Inv repo_scores []) as [H1 H2].
  split; [apply H1; constructor|].
  split; [|reflexivity].
  intro k. split.
  - intro H. destruct (proj1 (H2 k) H) as [[] | E]. exact E.
  - intro H. apply (proj2 (H2 k)). right. exact H.
Qed.

(* ------------------------------------------------------------------ *)
(** ** documentation._good_docstring *)

Section BlankRuns.

(** The step of the blank-line loop of [_good_docstring]. *)
Variable f : nat * bool -> string -> nat * bool.
Hypothesis Hf : forall c e ln,
  f (c, e) ln = if e then (c, true)
                else if negb (strip_nonempty ln) then (S c, Nat.ltb 5 (S c))
                else (0%nat, false).

Lemma blank_fold_stays l c : fold_left f l (c, true) = (c, true).
Proof. induction l as [|x l IH]; simpl; [reflexivity|]. rewrite Hf. exact IH. Qed.

Lemma blank_fold_run run c :
  Forall (fun ln => strip_nonempty ln = false) run -> run <> [] ->
  (6 <= c + length run)%nat -> snd (fold_left f run (c, false)) = true.
Proof.
  revert c. induction run as [|x run IH]; intros c Hb Hne Hlen; [congruence|].
  inversion Hb as [|? ? Hx Hrest]; subst. simpl. rewrite Hf, Hx. simpl negb. cbv iota.
  destruct (Nat.ltb 5 (S c)) eqn:E.
  - rewrite blank_fold_stays. reflexivity.
  - apply Nat.ltb_ge in E. apply IH; [exact Hrest | | simpl in Hlen; lia].
    destruct run; [simpl in Hlen; lia | discriminate].
Qed.

Lemma blank_fold_no_run lines :
  snd (fold_left f lines (0%nat, false)) = false ->
  forall pre run post, lines = pre ++ run ++ post -> length run = 6%nat ->
    ~ Forall (fun ln => strip_nonempty ln = false) run.
Proof.
  intros H pre run post -> Hlen Hb. rewrite !fold_left_app in H.
  destruct (fold_left f pre (0%nat, false)) as [c e].
  destruct e.
  - rewrite blank_fold_stays, blank_fold_stays in H. discriminate.
  - destruct (fold_left f run (c, false)) as [c' e'] eqn:R.
    pose proof (blank_fold_run run c Hb) as Hr. rewrite R in Hr. simpl in Hr.
    assert (e' = true) as ->.
    { apply Hr; [intro E; rewrite E in Hlen; discriminate | lia]. }
    rewrite blank_fold_stays in H. discriminate.
Qed.

End BlankRuns.

(** A docstring [_good_docstring] accepts has at least three non-blank
    lines, mentions ["returns:"] and ["args:"] or ["parameters:"] (in any
    case), and has no six consecutive blank lines. *)
Theorem _good_docstring_requirements (ds : string) :
  _good_docstring ds = true ->
  (3 <= length (filter strip_nonempty (splitlines ds)))%nat /\
  py_contains "returns:" (py_lower ds) = true /\
  (py_contains "args:" (py_lower ds) || py_contains "parameters:" (py_lower ds)) = true /\
  (forall pre run post, splitlines ds = pre ++ run ++ post -> length run = 6%nat ->
     ~ Forall (fun ln => strip_nonempty ln = false) run).
Proof.
  intro H. unfold _good_docstring in H. cbv zeta in H.
  destruct (Nat.ltb (length (filter strip_nonempty (splitlines ds))) 3) eqn:E3;
    [discriminate|]. apply Nat.ltb_ge in E3.
  match type of H with context [fold_left ?g (splitlines ds) (0%nat, false)] =>
    set (f := g) in H;
    assert (Hf : forall c e ln,
               f (c, e) ln = if e then (c, true)
                             else if negb (strip_nonempty ln) then (S c, Nat.ltb 5 (S c))
                             else (0%nat, false)) by (intros; reflexivity) end.
  destruct (fold_left f (splitlines ds) (0%nat, false)) as [c e] eqn:Fd.
  destruct e; [discriminate|].
  apply andb_prop in H. destruct H as [Ha Hr].
  split; [exact E3|]. split; [exact Hr|]. split; [exact Ha|].
  apply (blank_fold_no_run f Hf). rewrite Fd. reflexivity.
Qed.

Lemma _good_docstring_requirements_witness :
  _good_docstring "Load.

Args:
  path: file.
Returns:
  text." = true /\
  (3 <= length (filter strip_nonempty (splitlines "Load.

Args:
  path: file.
Returns:
  text.")))%nat.
Proof.
  assert (H : _good_docstring "Load.

Args:
  path: file.
Returns:
  text." = true) by (vm_compute; reflexivity).
  split; [exact H|]. exact (proj1 (_good_docstring_requirements _ H)).
Defined.

(* ------------------------------------------------------------------ *)
(** ** robustness.assess_robustness: the logging message *)

(** For a codebase with Python files, [assess_robustness] never raises and
    its first detail line says whether some parsed file imports [logging]. *)
Theorem assess_robustness_logging_first (ast_parse : string -> ast_result) (cb : codebase) :
  python_files cb <> [] ->
  exists s d, assess_robustness ast_parse cb =
    Ok (s, (if existsb imports_logging (parsed_trees ast_parse cb)
            then LOGGING_USED else LOGGING_UNUSED) :: d).
Proof.
  intro Hne. unfold assess_robustness, get_python_files. cbv zeta.
  rewrite match_list_cons by exact Hne.
  destruct (rob_fold_spec ast_parse cb (python_files cb) 0%nat 0%nat false []) as [d' H].
  rewrite H. cbv iota. unfold parsed_trees. simpl orb.
  destruct (Nat.eqb _ 0).
  - eexists _, _. reflexivity.
  - eexists _, _. reflexivity.
Qed.

Lemma assess_robustness_logging_first_witness :
  python_files sample_codebase <> [] /\
  exists s d, assess_robustness (fun _ => AstOk sample_tree) sample_codebase =
    Ok (s, (if existsb imports_logging (parsed_trees (fun _ => AstOk sample_tree) sample_codebase)
            then LOGGING_USED else LOGGING_UNUSED) :: d).
Proof.
  assert (H : python_files sample_codebase <> []) by discriminate.
  split; [exact H|].
  exact (assess_robustness_logging_first (fun _ => AstOk sample_tree) sample_codebase H).
Defined.

(* ------------------------------------------------------------------ *)
(** ** stats_utils.get_codebase_size_bucket: more files, never a smaller bucket *)

Lemma bucket_of_total_mono a b :
  (a <= b)%nat ->
  (bucket_rank (if Nat.ltb a 100 then "small" else if Nat.ltb a 1000 then "medium" else "large")
   <= bucket_rank (if Nat.ltb b 100 then "small" else if Nat.ltb b 1000 then "medium" else "large"))%nat.
Proof.
  intro H.
  destruct (Nat.ltb_spec a 100), (Nat.ltb_spec b 100), (Nat.ltb_spec a 1000), (Nat.ltb_spec b 1000);
    vm_compute; lia.
Qed.

(** Adding files to a codebase never moves it to a smaller size bucket
    (["small"] < ["medium"] < ["large"]). *)
Theorem get_codebase_size_bucket_monotone (cb : codebase) (more : list string) :
  (bucket_rank (get_codebase_size_bucket cb)
   <= bucket_rank (get_codebase_size_bucket
                     {| python_files := python_files cb ++ more; read_file := read_file cb |}))%nat.
Proof.
  unfold get_codebase_size_bucket, get_python_files. rewrite !size_total_fold.
  cbn [python_files read_file]. rewrite map_app, list_sum_app.
  apply bucket_of_total_mono. lia.
Qed.

(* ------------------------------------------------------------------ *)
(** ** BenchmarkResult.format_score_with_ci *)

(** [format_score_with_ci] shows the bare score when the two bounds of the
    interval are equal, and a range of half-width [(hi - lo) / 2] when they
    differ, whichever bound is larger; a result built without an interval,
    whose interval defaults to [(score, score)], always shows the bare
    score. *)
Theorem format_score_with_ci_range (r : BenchmarkResult) :
  (fst r.(confidence_interval) == snd r.(confidence_interval) ->
   format_score_with_ci r = ShowScore r.(score)) /\
  (~ (fst r.(confidence_interval) == snd r.(confidence_interval)) ->
   format_score_with_ci r
   = ShowScoreRange r.(score) ((snd r.(confidence_interval) - fst r.(confidence_interval)) / 2)) /\
  (forall s d m, format_score_with_ci (make_BenchmarkResult s d m None) = ShowScore s).
Proof.
  unfold format_score_with_ci. destruct r as [s d m [lo hi]]. cbn [fst snd confidence_interval score].
  split; [|split].
  - intro H. apply Qeq_bool_iff in H. rewrite H. reflexivity.
  - intro H. destruct (Qeq_bool lo hi) eqn:E; [|reflexivity].
    apply Qeq_bool_iff in E. contradiction.
  - intros s' d' m'. cbn. rewrite Qeq_bool_refl. reflexivity.
Qed.

Lemma format_score_with_ci_range_witness :
  ~ (fst (8, 6) == snd (8, 6)) /\
  format_score_with_ci (make_BenchmarkResult 7 [] None (Some (8, 6)))
  = ShowScoreRange 7 ((6 - 8) / 2).
Proof.
  assert (H : ~ (fst (8, 6) == snd (8, 6))) by (unfold Qeq; simpl; lia).
  split; [exact H|].
  exact (proj1 (proj2 (format_score_with_ci_range (make_BenchmarkResult 7 [] None (Some (8, 6))))) H).
Defined.

(* ------------------------------------------------------------------ *)
(** ** The [--skip] option: comma-separated tokens *)

Lemma py_split_aux_app sep a b cur :
  py_split_aux sep (a ++ String sep b) cur = py_split_aux sep a cur ++ py_split_aux sep b EmptyString.
Proof.
  revert cur. induction a as [|c a IH]; intro cur; simpl.
  - rewrite Ascii.eqb_refl. reflexivity.
  - destruct (Ascii.eqb c sep); simpl; rewrite IH; reflexivity.
Qed.

(** The tokens of [--skip] are handled one at a time: joining two option
    values with a comma joins their skip tokens. *)
Theorem parse_skip_app (a b : string) :
  parse_skip (a ++ String ","%char b) = parse_skip a ++ parse_skip b.
Proof.
  unfold parse_skip, py_split. rewrite py_split_aux_app, filter_app, map_app. reflexivity.
Qed.
